(** * mcp-chrome: tab automation session core

    A shallow embedding of the Chrome extension's image utilities
    (stitchImages, cropAndResizeImage, compressImage) and of the file
    upload tool (FileUploadTool: execute, attachDebugger, detachDebugger,
    cleanupDebugger, prepareFileFromRemote), with the properties the
    design document states about them.

    Conventions of the embedding:
    - a JavaScript [number] that holds a fraction (scale, quality) is an
      IEEE 754 binary64 value: Rocq's primitive [float];
    - a [number] that holds a pixel coordinate, a byte count or a tab id
      is an integer: [Z];
    - an awaited promise is an [outcome]: resolved with a value or
      rejected with the message of the thrown [Error];
    - the browser (chrome.* APIs, canvas, codecs) is a record of
      capabilities handed to the code. *)

From Stdlib Require Import ZArith Ascii String List Bool Lia Floats.
From stdpp Require Import base option list gmap.

Set Warnings "-inexact-float".
Local Open Scope string_scope.
Local Open Scope list_scope.
Local Open Scope Z_scope.

(** ** JavaScript values *)

Module Js.

(** The settlement of an awaited promise. *)
Inductive outcome (A : Type) : Type :=
| Resolved (a : A)
| Rejected (message : string).
Arguments Resolved {A} a.
Arguments Rejected {A} message.

(** Truthiness of an optional string: [undefined] and [''] are falsy. *)
Definition truthy_string (s : option string) : bool :=
  match s with
  | Some EmptyString => false
  | Some _ => true
  | None => false
  end.

(** Truthiness of an optional integer: [undefined] and [0] are falsy. *)
Definition truthy_Z (n : option Z) : bool :=
  match n with
  | Some 0 => false
  | Some _ => true
  | None => false
  end.

(** [a || b] on optional strings. *)
Definition or_else (a : option string) (b : string) : string :=
  match a with
  | Some s => if truthy_string a then s else b
  | None => b
  end.

(** [a === b] where [a] may be undefined. *)
Definition eq_opt_string (a : option string) (b : string) : bool :=
  match a with Some s => String.eqb s b | None => false end.

Definition eq_opt_Z (a : option Z) (b : Z) : bool :=
  match a with Some z => Z.eqb z b | None => false end.

(** [Math.max(a, b)]: NaN if either argument is NaN; of two zeros the
    positive one. *)
Definition Math_max (a b : float) : float :=
  if is_nan a || is_nan b then nan
  else if (a <? b)%float then b
  else if (b <? a)%float then a
  else if get_sign a then b else a.

(** [Math.round(x)]: the integer nearest to [x], halves towards
    +infinity; NaN, the infinities, the zeros and the values that are
    already integers are returned as they are, and a negative value that
    rounds to zero gives -0. *)
Definition Math_round (x : float) : float :=
  match Prim2SF x with
  | S754_finite s m e =>
      if 0 <=? e then x
      else
        let d := Z.pow 2 (- e) in
        let n := if s then - Z.pos m else Z.pos m in
        let r := (2 * n + d) / (2 * d) in
        if r =? 0 then (if s then (-0)%float else 0%float)
        else if r <? 0 then (- of_uint63 (Uint63.of_Z (- r)))%float
        else of_uint63 (Uint63.of_Z r)
  | _ => x
  end.

(** An integer as a [number]. Exact below 2^53. *)
Definition of_int (z : Z) : float :=
  if z <? 0 then (- of_uint63 (Uint63.of_Z (- z)))%float
  else of_uint63 (Uint63.of_Z z).

End Js.
Export Js.

(** ** Image processing utility functions *)

Module ImageUtils.

(** Compression configuration constants. *)
Module COMPRESSION_CONFIG.
Definition MAX_ATTEMPTS : Z := 10.
Definition MIN_QUALITY : float := 0.2%float.
Definition MIN_SCALE : float := 0.3%float.
Definition QUALITY_THRESHOLD : float := 0.3%float.
Definition REDUCTION_FACTOR : float := 0.85%float.
End COMPRESSION_CONFIG.

(** A decoded raster; [width] and [height] are never negative in a real
    [ImageBitmap]. *)
Record ImageBitmap : Type := {
  width : Z;
  height : Z;
  pixels : string
}.

Inductive ImageFormat : Type := image_jpeg | image_webp.

(** What the platform does for the image utilities. *)
Record ImageHost : Type := {
  (** fetch, blob and createImageBitmap in one: rejects on a payload that
      does not decode *)
  createImageBitmapFromUrl : string -> outcome ImageBitmap;
  (** whether [canvas.getContext('2d')] gives a context *)
  getContext2d : bool;
  (** drawImage onto a canvas of the given size, convertToBlob with the
      given type and quality, and readAsDataURL *)
  encodeResized : ImageBitmap -> float -> float -> ImageFormat -> float -> string
}.

(** The text after the first comma, up to the next one: [s.split(',')[1]]. *)
Fixpoint up_to_comma (s : string) : string :=
  match s with
  | EmptyString => EmptyString
  | String c rest =>
      if Ascii.eqb c ","%char then EmptyString else String c (up_to_comma rest)
  end.

Fixpoint split_comma_1 (s : string) : option string :=
  match s with
  | EmptyString => None
  | String c rest =>
      if Ascii.eqb c ","%char then Some (up_to_comma rest) else split_comma_1 rest
  end.

(** Get the size of a base64-encoded data URL in bytes. *)
Definition getBase64Size (dataUrl : string) : Z :=
  let base64 :=
    match split_comma_1 dataUrl with
    | Some seg => if truthy_string (Some seg) then seg else dataUrl
    | None => dataUrl
    end in
  Z.of_nat (String.length base64).

Record CompressResult : Type := {
  dataUrl : string;
  mimeType : ImageFormat
}.

Record CompressOptions : Type := {
  scale : option float;
  quality : option float;
  format : option ImageFormat;
  maxSizeBytes : option Z
}.

(** Helper function to compress an image once with the given parameters. *)
Definition compressImageOnce (host : ImageHost) (imageDataUrl : string)
    (scale quality : float) (format : ImageFormat) : outcome CompressResult :=
  match createImageBitmapFromUrl host imageDataUrl with
  | Rejected e => Rejected e
  | Resolved imageBitmap =>
      let newWidth := Math_round (of_int (width imageBitmap) * scale)%float in
      let newHeight := Math_round (of_int (height imageBitmap) * scale)%float in
      if negb (getContext2d host) then
        Rejected "Failed to get 2D context from OffscreenCanvas"
      else
        let dataUrl := encodeResized host imageBitmap newWidth newHeight format quality in
        Resolved {| dataUrl := dataUrl; mimeType := format |}
  end.

(** One call of [compressImageOnce], as the loop makes it. *)
Record Attempt : Type := {
  attemptScale : float;
  attemptQuality : float
}.

(** The parameters of the next attempt: first reduce quality, then reduce
    scale if quality is already low. *)
Definition adjust (a : Attempt) : Attempt :=
  if (COMPRESSION_CONFIG.QUALITY_THRESHOLD <? attemptQuality a)%float then
    {| attemptScale := attemptScale a;
       attemptQuality :=
         Math_max COMPRESSION_CONFIG.MIN_QUALITY
           (attemptQuality a * COMPRESSION_CONFIG.REDUCTION_FACTOR)%float |}
  else
    {| attemptScale :=
         Math_max COMPRESSION_CONFIG.MIN_SCALE
           (attemptScale a * COMPRESSION_CONFIG.REDUCTION_FACTOR)%float;
       attemptQuality := attemptQuality a |}.

(** The while loop of [compressImage]. [fuel] bounds the recursion; the
    loop itself stops on [attempts < MAX_ATTEMPTS]. The second component
    lists the calls of [compressImageOnce] the loop made, in order. *)
Fixpoint compressLoop (fuel : nat) (host : ImageHost) (imageDataUrl : string)
    (format : ImageFormat) (maxSizeBytes : Z)
    (current : Attempt) (result : CompressResult) (attempts : Z)
    : option (outcome CompressResult * list Attempt) :=
  if (getBase64Size (dataUrl result) >? maxSizeBytes)
     && (attempts <? COMPRESSION_CONFIG.MAX_ATTEMPTS) then
    match fuel with
    | O => None
    | S fuel' =>
        let attempts := attempts + 1 in
        let current := adjust current in
        match compressImageOnce host imageDataUrl
                (attemptScale current) (attemptQuality current) format with
        | Rejected e => Some (Rejected e, [current])
        | Resolved result =>
            match compressLoop fuel' host imageDataUrl format maxSizeBytes
                    current result attempts with
            | Some (r, calls) => Some (r, current :: calls)
            | None => None
            end
        end
    end
  else Some (Resolved result, []).

(** Compresses an image by scaling it and converting it to a target format
    with a specific quality; with [maxSizeBytes], iteratively. The result
    comes with the list of the [compressImageOnce] calls made. *)
Definition compressImage (host : ImageHost) (imageDataUrl : string)
    (options : CompressOptions)
    : option (outcome CompressResult * list Attempt) :=
  let scale := default 1.0%float (scale options) in
  let quality := default 0.8%float (quality options) in
  let format := default image_jpeg (format options) in
  let first := {| attemptScale := scale; attemptQuality := quality |} in
  if negb (truthy_Z (maxSizeBytes options)) then
    Some (compressImageOnce host imageDataUrl scale quality format, [first])
  else
    let maxSizeBytes := default 0 (maxSizeBytes options) in
    match compressImageOnce host imageDataUrl scale quality format with
    | Rejected e => Some (Rejected e, [first])
    | Resolved result =>
        match compressLoop (Z.to_nat COMPRESSION_CONFIG.MAX_ATTEMPTS) host
                imageDataUrl format maxSizeBytes first result 0 with
        | Some (r, calls) => Some (r, first :: calls)
        | None => None
        end
    end.

(** A canvas, as the list of the drawing calls made on its context.
    [N] is the type of its sizes and destination coordinates. *)
Inductive DrawOp (N : Type) : Type :=
| FillRect (fillStyle : string) (x y w h : N)
| DrawImage (img : ImageBitmap) (sx sy sWidth sHeight : Z) (dx dy dWidth dHeight : N).
Arguments FillRect {N} fillStyle x y w h.
Arguments DrawImage {N} img sx sy sWidth sHeight dx dy dWidth dHeight.

Record OffscreenCanvas (N : Type) : Type := {
  canvasWidth : N;
  canvasHeight : N;
  drawn : list (DrawOp N)
}.
Arguments canvasWidth {N} _.
Arguments canvasHeight {N} _.
Arguments drawn {N} _.

Definition draw {N : Type} (op : DrawOp N) (canvas : OffscreenCanvas N)
    : OffscreenCanvas N :=
  {| canvasWidth := canvasWidth canvas;
     canvasHeight := canvasHeight canvas;
     drawn := (drawn canvas ++ [op])%list |}.

Module Part.
Record t : Type := { dataUrl : string; y : Z }.
End Part.

(** One turn of the for loop of [stitchImages]: the canvas and the
    console after the part. *)
Definition stitchPart (host : ImageHost) (totalHeightPx : Z)
    (st : OffscreenCanvas Z * list string) (part : Part.t)
    : OffscreenCanvas Z * list string :=
  let '(canvas, console) := st in
  match createImageBitmapFromUrl host (Part.dataUrl part) with
  | Rejected error =>
      (canvas, (console ++ [("Error stitching image part: " ++ error)%string])%list)
  | Resolved img =>
      let sx := 0 in
      let sy := 0 in
      let sWidth := width img in
      let sHeight := height img in
      let dy := Part.y part in
      let sHeight :=
        if dy + sHeight >? totalHeightPx then totalHeightPx - dy else sHeight in
      if sHeight <=? 0 then (canvas, console)
      else (draw (DrawImage img sx sy sWidth sHeight 0 dy sWidth sHeight) canvas,
            console)
  end.

(** Stitch multiple image parts (dataURL) onto a single canvas. The
    second component is what was written with [console.error]. *)
Definition stitchImages (host : ImageHost) (parts : list Part.t)
    (totalWidthPx totalHeightPx : Z)
    : outcome (OffscreenCanvas Z * list string) :=
  let canvas :=
    {| canvasWidth := totalWidthPx; canvasHeight := totalHeightPx; drawn := [] |} in
  if negb (getContext2d host) then Rejected "Unable to get canvas context"
  else
    let canvas :=
      draw (FillRect "#FFFFFF" 0 0 (canvasWidth canvas) (canvasHeight canvas))
        canvas in
    Resolved (fold_left (stitchPart host totalHeightPx) parts (canvas, [])).

Module CropRect.
Record t : Type := { x : Z; y : Z; width : Z; height : Z }.
End CropRect.

(** Ensure crop area is within image boundaries: the source rectangle
    [(sx, sy, sWidth, sHeight)] that [cropAndResizeImage] computes. *)
Definition clampCrop (img : ImageBitmap) (cropRectPx : CropRect.t)
    : Z * Z * Z * Z :=
  let sx := CropRect.x cropRectPx in
  let sy := CropRect.y cropRectPx in
  let sWidth := CropRect.width cropRectPx in
  let sHeight := CropRect.height cropRectPx in
  let '(sWidth, sx) := if sx <? 0 then (sWidth + sx, 0) else (sWidth, sx) in
  let '(sHeight, sy) := if sy <? 0 then (sHeight + sy, 0) else (sHeight, sy) in
  let sWidth := if sx + sWidth >? width img then width img - sx else sWidth in
  let sHeight := if sy + sHeight >? height img then height img - sy else sHeight in
  (sx, sy, sWidth, sHeight).

Definition InvalidCropSize : string :=
  "Invalid calculated crop size (<=0). Element may not be visible or fully captured.".

(** Truthiness of an optional fraction: [undefined], the zeros and NaN
    are falsy. *)
Definition truthy_float (f : option float) : bool :=
  match f with
  | Some v => negb (is_zero v || is_nan v)
  | None => false
  end.

(** Crop image (from dataURL) to specified rectangle and resize. *)
Definition cropAndResizeImage (host : ImageHost) (originalDataUrl : string)
    (cropRectPx : CropRect.t) (dpr : option float)
    (targetWidthOpt targetHeightOpt : option float)
    : outcome (OffscreenCanvas float) :=
  let dpr := default 1%float dpr in
  match createImageBitmapFromUrl host originalDataUrl with
  | Rejected e => Rejected e
  | Resolved img =>
      let '(sx, sy, sWidth, sHeight) := clampCrop img cropRectPx in
      if (sWidth <=? 0) || (sHeight <=? 0) then Rejected InvalidCropSize
      else
        let finalCanvasWidthPx :=
          if truthy_float targetWidthOpt
          then (default 0%float targetWidthOpt * dpr)%float else of_int sWidth in
        let finalCanvasHeightPx :=
          if truthy_float targetHeightOpt
          then (default 0%float targetHeightOpt * dpr)%float else of_int sHeight in
        let canvas :=
          {| canvasWidth := finalCanvasWidthPx;
             canvasHeight := finalCanvasHeightPx;
             drawn := [] |} in
        if negb (getContext2d host) then Rejected "Unable to get canvas context"
        else
          Resolved
            (draw (DrawImage img sx sy sWidth sHeight
                     0%float 0%float finalCanvasWidthPx finalCanvasHeightPx)
               canvas)
  end.

End ImageUtils.

(** ** The file upload tool *)

Module FileUpload.

Record FileUploadToolParams : Type := {
  selector : string;
  filePath : option string;
  fileUrl : option string;
  base64Data : option string;
  fileName : option string;
  multiple : option bool
}.

(** The data of a success response, before [serialize]. *)
Record UploadData : Type := {
  success : bool;
  message : string;
  files : list string;
  dataSelector : string;
  fileCount : Z
}.

Inductive TextContent : Type :=
| Text (text : string)
| Serialized (data : UploadData).

Record ToolResult : Type := {
  content : list TextContent;
  isError : bool
}.

Definition createErrorResponse (message : string) : ToolResult :=
  {| content := [Text message]; isError := true |}.

Definition createSuccessResponse (data : UploadData) : ToolResult :=
  {| content := [Serialized data]; isError := false |}.

(** An entry of [chrome.debugger.getTargets()]. *)
Record TargetInfo : Type := {
  targetTabId : option Z;
  attached : bool;
  extensionId : option string
}.

Record Node : Type := {
  nodeName : string;
  attributes : option (list string)
}.

(** What a protocol command carries and answers. *)
Inductive CommandParams : Type :=
| NoParams
| GetDocumentParams (depth : Z) (pierce : bool)
| QuerySelectorParams (nodeId : Z) (selector : string)
| DescribeNodeParams (nodeId : Z)
| SetFileInputFilesParams (nodeId : Z) (files : list string)
| EvaluateParams (expression : string).

Record CommandResult : Type := {
  root : option Z;       (* root.nodeId *)
  resultNodeId : option Z;
  node : option Node
}.

(** The asynchronous calls the tool awaits, by the type of their value. *)
Inductive call : Type -> Type :=
| tabs_query : call (option Z)   (* tabs[0]?.id of the active tab *)
| prepareFileFromRemote (fileUrl base64Data : option string) (fileName : string)
    : call (option string)
| debugger_getTargets : call (list TargetInfo)
| debugger_attach (tabId : Z) (version : string) : call unit
| debugger_sendCommand (tabId : Z) (method : string) (params : CommandParams)
    : call CommandResult
| debugger_detach (tabId : Z) : call unit.

(** The tool's code: a tree of awaited calls and of accesses to
    [this.activeDebuggers]. *)
Inductive prog (R : Type) : Type :=
| Ret (r : R)
| Await {A : Type} (c : call A) (k : outcome A -> prog R)
| Has (tabId : Z) (k : bool -> prog R)
| MapSet (tabId : Z) (v : bool) (k : prog R)
| MapDelete (tabId : Z) (k : prog R)
| Log (line : string) (k : prog R).
Arguments Ret {R} r.
Arguments Await {R A} c k.
Arguments Has {R} tabId k.
Arguments MapSet {R} tabId v k.
Arguments MapDelete {R} tabId k.
Arguments Log {R} line k.

Fixpoint bind {R S : Type} (p : prog R) (f : R -> prog S) : prog S :=
  match p with
  | Ret r => f r
  | Await c k => Await c (fun x => bind (k x) f)
  | Has t k => Has t (fun b => bind (k b) f)
  | MapSet t v k => MapSet t v (bind k f)
  | MapDelete t k => MapDelete t (bind k f)
  | Log l k => Log l (bind k f)
  end.

(** Code that may throw: the rejection is the thrown error. *)
Definition bindE {A R : Type} (p : prog (outcome A)) (f : A -> prog (outcome R))
    : prog (outcome R) :=
  bind p (fun r => match r with Resolved a => f a | Rejected e => Ret (Rejected e) end).

Definition await {A : Type} (c : call A) : prog (outcome A) := Await c Ret.
Definition throw {A : Type} (message : string) : prog (outcome A) := Ret (Rejected message).
Definition log {A : Type} (line : string) (a : A) : prog (outcome A) :=
  Log line (Ret (Resolved a)).

Notation "'let*' x ':=' p 'in' q" := (bindE p (fun x => q))
  (at level 10, x pattern, p at level 100, q at level 200).
Notation "p ';;' q" := (bindE p (fun _ => q))
  (at level 100, q at level 200, right associativity).

Definition AlreadyAttached : string :=
  "Debugger is already attached to this tab by another extension or DevTools".

(** Attach debugger to a tab. [runtime_id] is [chrome.runtime.id]. *)
Definition attachDebugger (runtime_id : string) (tabId : Z) : prog (outcome unit) :=
  let* targets := await debugger_getTargets in
  let existingTarget :=
    List.find (fun t => eq_opt_Z (targetTabId t) tabId && attached t) targets in
  match existingTarget with
  | Some existingTarget =>
      if eq_opt_string (extensionId existingTarget) runtime_id then
        log "Debugger already attached by this extension" tt
      else throw AlreadyAttached
  | None =>
      await (debugger_attach tabId "1.3") ;;
      MapSet tabId true (log "Debugger attached to tab" tt)
  end.

(** Detach debugger from a tab. *)
Definition detachDebugger (tabId : Z) : prog unit :=
  Has tabId (fun has =>
    if negb has then Ret tt
    else
      Await (debugger_detach tabId) (fun r =>
        match r with
        | Resolved _ => Log "Debugger detached from tab" (MapDelete tabId (Ret tt))
        | Rejected error =>
            Log ("Error detaching debugger from tab: " ++ error)%string
              (MapDelete tabId (Ret tt))
        end)).

(** Check if it's a file input by looking for type="file" in attributes. *)
Fixpoint isFileInput (attributes : list string) : bool :=
  match attributes with
  | name :: value :: rest =>
      (String.eqb name "type" && String.eqb value "file") || isFileInput rest
  | _ => false
  end.

(** [selector.replace(/'/g, "\\'")] *)
Fixpoint escapeQuotes (s : string) : string :=
  match s with
  | EmptyString => EmptyString
  | String c rest =>
      if Ascii.eqb c "'"%char then String "\"%char (String "'"%char (escapeQuotes rest))
      else String c (escapeQuotes rest)
  end.

(** The script that triggers the change event (its blanks left out). *)
Definition changeEventScript (selector : string) : string :=
  ("(function() { const element = document.querySelector('"
   ++ escapeQuotes selector
   ++ "'); if (element) { const event = new Event('change', { bubbles: true }); element.dispatchEvent(event); return true; } return false; })()")%string.

(** The double quote, and a text between double quotes. *)
Definition dquote : string := String (ascii_of_nat 34) EmptyString.
Definition quoted (s : string) : string := (dquote ++ s ++ dquote)%string.

Definition property {A : Type} (field : option A) : prog (outcome A) :=
  match field with
  | Some a => Ret (Resolved a)
  | None => throw "Cannot read properties of undefined"
  end.

(** The try block of [execute], from the debugger attachment on. *)
Definition upload (runtime_id : string) (selector : string) (tabId : Z)
    (files : list string) : prog (outcome ToolResult) :=
  attachDebugger runtime_id tabId ;;
  await (debugger_sendCommand tabId "DOM.enable" NoParams) ;;
  await (debugger_sendCommand tabId "Runtime.enable" NoParams) ;;
  let* document :=
    await (debugger_sendCommand tabId "DOM.getDocument" (GetDocumentParams (-1) true)) in
  let* rootNodeId := property (root document) in
  let* found :=
    await (debugger_sendCommand tabId "DOM.querySelector"
             (QuerySelectorParams rootNodeId selector)) in
  if negb (truthy_Z (resultNodeId found)) then
    throw ("Element with selector " ++ quoted selector ++ " not found")%string
  else
    let nodeId := default 0 (resultNodeId found) in
    let* described :=
      await (debugger_sendCommand tabId "DOM.describeNode" (DescribeNodeParams nodeId)) in
    let* node := property (node described) in
    if negb (String.eqb (nodeName node) "INPUT") then
      throw ("Element with selector " ++ quoted selector ++ " is not an input element")%string
    else
      let attributes := default [] (attributes node) in
      if negb (isFileInput attributes) then
        throw ("Element with selector " ++ quoted selector
               ++ " is not a file input (type=" ++ quoted "file" ++ ")")%string
      else
        await (debugger_sendCommand tabId "DOM.setFileInputFiles"
                 (SetFileInputFilesParams nodeId files)) ;;
        await (debugger_sendCommand tabId "Runtime.evaluate"
                 (EvaluateParams (changeEventScript selector))) ;;
        bind (detachDebugger tabId) (fun _ =>
          Ret (Resolved (createSuccessResponse
                 {| success := true;
                    message := "File(s) uploaded successfully";
                    files := files;
                    dataSelector := selector;
                    fileCount := Z.of_nat (List.length files) |}))).

(** Prepare file paths: the first part of the try block. [k] is the rest
    of the block; the block returns early when no file could be staged. *)
Definition prepareFiles (args : FileUploadToolParams)
    (k : list string -> prog (outcome ToolResult)) : prog (outcome ToolResult) :=
  if truthy_string (filePath args) then k [default "" (filePath args)]
  else if truthy_string (fileUrl args) || truthy_string (base64Data args) then
    let* tempFilePath :=
      await (prepareFileFromRemote (fileUrl args) (base64Data args)
               (or_else (fileName args) "uploaded-file")) in
    if negb (truthy_string tempFilePath) then
      Ret (Resolved (createErrorResponse "Failed to prepare file for upload"))
    else k [default "" tempFilePath]
  else k [].

(** The catch block of [execute]; [tabId] is the variable as the try
    block left it. *)
Definition caught (tabId : option Z) (error : string) : prog ToolResult :=
  Log ("Error in file upload operation: " ++ error)%string
    (bind
       (match tabId with
        | Some tabId =>
            Has tabId (fun has => if has then detachDebugger tabId else Ret tt)
        | None => Ret tt
        end)
       (fun _ => Ret (createErrorResponse ("Error uploading file: " ++ error)%string))).

(** Execute file upload operation using Chrome DevTools Protocol. *)
Definition execute (runtime_id : string) (args : FileUploadToolParams)
    : prog ToolResult :=
  let multiple := default false (multiple args) in
  Log "Starting file upload operation with options:"
    (if negb (truthy_string (Some (selector args))) then
       Ret (createErrorResponse "Selector is required for file upload")
     else if negb (truthy_string (filePath args))
             && negb (truthy_string (fileUrl args))
             && negb (truthy_string (base64Data args)) then
       Ret (createErrorResponse "One of filePath, fileUrl, or base64Data must be provided")
     else
       Await tabs_query (fun tabs =>
         match tabs with
         | Rejected error => caught None error
         | Resolved id =>
             if negb (truthy_Z id) then Ret (createErrorResponse "No active tab found")
             else
               let tabId := default 0 id in
               bind
                 (prepareFiles args (upload runtime_id (selector args) tabId))
                 (fun r =>
                    match r with
                    | Resolved result => Ret result
                    | Rejected error => caught (Some tabId) error
                    end)
         end)).

(** *** Running the tool against a browser *)

(** What is observed of a run: the calls issued, and the tab-removal
    notifications delivered while a call was pending. *)
Inductive event : Type :=
| Issued {A : Type} (c : call A)
| TabRemoved (tabId : Z).

Record State : Type := {
  activeDebuggers : gmap Z bool;
  trace : list event;
  console : list string
}.

(** The state of a new [FileUploadTool]. *)
Definition initial : State :=
  {| activeDebuggers := ∅; trace := []; console := [] |}.

Definition has (tabId : Z) (st : State) : bool :=
  bool_decide (is_Some (activeDebuggers st !! tabId)).

Definition observe (e : event) (st : State) : State :=
  {| activeDebuggers := activeDebuggers st;
     trace := trace st ++ [e];
     console := console st |}.

(** Clean up debugger connection. *)
Definition cleanupDebugger (tabId : Z) (st : State) : State :=
  {| activeDebuggers := delete tabId (activeDebuggers st);
     trace := trace st;
     console := console st |}.

(** The listener the constructor adds to [chrome.tabs.onRemoved]. *)
Definition onRemoved (tabId : Z) (st : State) : State :=
  let st := observe (TabRemoved tabId) st in
  if has tabId st then cleanupDebugger tabId st else st.

(** The browser during one run: how each awaited call settles, and the
    tabs that are removed while it is pending. *)
Record Browser : Type := {
  settle : forall A : Type, call A -> outcome A;
  removedDuring : forall A : Type, call A -> list Z
}.
Arguments settle b {A} c.
Arguments removedDuring b {A} c.

(** The notifications of removed tabs, handled one after the other. *)
Definition deliver (removed : list Z) (st : State) : State :=
  fold_left (fun st tabId => onRemoved tabId st) removed st.

Definition setDebuggers (m : gmap Z bool) (st : State) : State :=
  {| activeDebuggers := m; trace := trace st; console := console st |}.

Definition writeConsole (line : string) (st : State) : State :=
  {| activeDebuggers := activeDebuggers st;
     trace := trace st;
     console := console st ++ [line] |}.

(** A run of the tool's code: an awaited call is issued, the tabs
    removed while it is pending are cleaned up, and the code resumes with
    the settlement of the call. *)
Fixpoint run {R : Type} (b : Browser) (p : prog R) (st : State) : R * State :=
  match p with
  | Ret r => (r, st)
  | Await c k =>
      run b (k (settle b c)) (deliver (removedDuring b c) (observe (Issued c) st))
  | Has tabId k => run b (k (has tabId st)) st
  | MapSet tabId v k =>
      run b k (setDebuggers (<[tabId := v]> (activeDebuggers st)) st)
  | MapDelete tabId k =>
      run b k (setDebuggers (delete tabId (activeDebuggers st)) st)
  | Log line k => run b k (writeConsole line st)
  end.

(** Calls of [execute] one after the other, each returned before the
    next starts. *)
Fixpoint runAll (runtime_id : string)
    (calls : list (Browser * FileUploadToolParams)) (st : State)
    : list ToolResult * State :=
  match calls with
  | [] => ([], st)
  | (b, args) :: rest =>
      let '(result, st) := run b (execute runtime_id args) st in
      let '(results, st) := runAll runtime_id rest st in
      (result :: results, st)
  end.

(** A call of the debugger protocol or of the debugger attachment. *)
Definition isDebuggerCall (e : event) : bool :=
  match e with
  | Issued (debugger_attach _ _) => true
  | Issued (debugger_sendCommand _ _ _) => true
  | Issued (debugger_detach _) => true
  | _ => false
  end.

End FileUpload.

(** ** Staging a remote or inline file through the native host *)

Module Stager.

Record ResponsePayload : Type := {
  success : bool;
  filePath : option string;
  payloadError : option string
}.

(** A message delivered to [chrome.runtime.onMessage]. *)
Record Message : Type := {
  type : string;
  responseToRequestId : option string;
  payload : option ResponsePayload;
  error : option string
}.

(** The message handed to [chrome.runtime.sendMessage]. *)
Record Envelope : Type := {
  envelopeType : string;
  messageType : string;
  requestId : string;
  action : string;
  fileUrl : option string;
  base64Data : option string;
  fileName : string
}.

(** One call of [prepareFileFromRemote] between its start and the end of
    the page: the promise, the timer, the listener and the send. *)
Record Pending : Type := {
  pendingRequestId : string;
  (** the value the promise resolved with, once it has *)
  resolved : option (option string);
  (** the delay of the timeout, while it is scheduled *)
  timeout : option Z;
  (** whether [handleMessage] is registered on [chrome.runtime.onMessage] *)
  listening : bool;
  (** whether the promise of [sendMessage] is still pending *)
  sending : bool;
  addListenerCalls : nat;
  removeListenerCalls : nat;
  sent : list Envelope;
  console : list string
}.

(** [resolve(value)]: only the first call settles the promise. *)
Definition resolve (value : option string) (p : Pending) : Pending :=
  {| pendingRequestId := pendingRequestId p;
     resolved := match resolved p with Some v => Some v | None => Some value end;
     timeout := timeout p; listening := listening p; sending := sending p;
     addListenerCalls := addListenerCalls p;
     removeListenerCalls := removeListenerCalls p;
     sent := sent p; console := console p |}.

Definition clearTimeout (p : Pending) : Pending :=
  {| pendingRequestId := pendingRequestId p; resolved := resolved p;
     timeout := None; listening := listening p; sending := sending p;
     addListenerCalls := addListenerCalls p;
     removeListenerCalls := removeListenerCalls p;
     sent := sent p; console := console p |}.

Definition removeListener (p : Pending) : Pending :=
  {| pendingRequestId := pendingRequestId p; resolved := resolved p;
     timeout := timeout p; listening := false; sending := sending p;
     addListenerCalls := addListenerCalls p;
     removeListenerCalls := S (removeListenerCalls p);
     sent := sent p; console := console p |}.

Definition console_error (line : string) (p : Pending) : Pending :=
  {| pendingRequestId := pendingRequestId p; resolved := resolved p;
     timeout := timeout p; listening := listening p; sending := sending p;
     addListenerCalls := addListenerCalls p;
     removeListenerCalls := removeListenerCalls p;
     sent := sent p; console := (console p ++ [line])%list |}.

(** The body of the promise of [prepareFileFromRemote]: arm the timer,
    add the listener, send the request. [requestId] is the fresh id
    [file-upload-<time>-<random>]. *)
Definition prepareFileFromRemote (requestId : string)
    (fileUrl base64Data : option string) (fileName : string) : Pending :=
  {| pendingRequestId := requestId;
     resolved := None;
     timeout := Some 30000;
     listening := true;
     sending := true;
     addListenerCalls := 1;
     removeListenerCalls := 0;
     sent := [ {| envelopeType := "forward_to_native";
                  messageType := "file_operation";
                  requestId := requestId;
                  action := "prepareFile";
                  fileUrl := fileUrl;
                  base64Data := base64Data;
                  fileName := fileName |} ];
     console := [] |}.

(** A timer that has fired is no longer scheduled. *)
Definition spent (p : Pending) : Pending :=
  {| pendingRequestId := pendingRequestId p; resolved := resolved p;
     timeout := None; listening := listening p; sending := sending p;
     addListenerCalls := addListenerCalls p;
     removeListenerCalls := removeListenerCalls p;
     sent := sent p; console := console p |}.

(** The timeout callback: it logs and resolves, nothing else. *)
Definition onTimeout (p : Pending) : Pending :=
  resolve None (console_error "File preparation request timed out" p).

(** The listener for the response. *)
Definition handleMessage (message : Message) (p : Pending) : Pending :=
  if String.eqb (type message) "file_operation_response"
     && eq_opt_string (responseToRequestId message) (pendingRequestId p)
  then
    let p := removeListener (clearTimeout p) in
    let path := match payload message with Some r => filePath r | None => None end in
    let ok := match payload message with Some r => success r | None => false end in
    if ok && truthy_string path then resolve path p
    else resolve None (console_error "Native host failed to prepare file:" p)
  else p.

(** The catch of the send. *)
Definition onSendRejected (reason : string) (p : Pending) : Pending :=
  resolve None
    (removeListener
       (clearTimeout
          (console_error ("Error sending message to background: " ++ reason)%string p))).

(** What the page can do to a pending call. *)
Inductive Event : Type :=
| MessageArrives (message : Message)
| TimerFires
| SendRejects (reason : string)
| SendResolves.

(** A message reaches the listener only while it is registered, the
    timer fires only while it is scheduled, and the send settles once. *)
Definition step (p : Pending) (e : Event) : Pending :=
  match e with
  | MessageArrives message => if listening p then handleMessage message p else p
  | TimerFires =>
      match timeout p with
      | Some _ => onTimeout (spent p)
      | None => p
      end
  | SendRejects reason =>
      if sending p then
        onSendRejected reason
          {| pendingRequestId := pendingRequestId p; resolved := resolved p;
             timeout := timeout p; listening := listening p; sending := false;
             addListenerCalls := addListenerCalls p;
             removeListenerCalls := removeListenerCalls p;
             sent := sent p; console := console p |}
      else p
  | SendResolves =>
      {| pendingRequestId := pendingRequestId p; resolved := resolved p;
         timeout := timeout p; listening := listening p; sending := false;
         addListenerCalls := addListenerCalls p;
         removeListenerCalls := removeListenerCalls p;
         sent := sent p; console := console p |}
  end.

Definition steps (p : Pending) (events : list Event) : Pending :=
  fold_left step events p.

End Stager.

(** ** Exporting a canvas *)

Module CanvasExport.

(** What the platform does for [canvasToDataURL]: [convertToBlob] with a
    type and an optional quality, and a [FileReader] that may fail. *)
Record ExportHost (Canvas Blob : Type) : Type := {
  convertToBlob : Canvas -> string -> option float -> outcome Blob;
  readAsDataURL : Blob -> outcome string
}.
Arguments convertToBlob {Canvas Blob} _ _ _ _.
Arguments readAsDataURL {Canvas Blob} _ _.

(** Convert canvas to data URL. *)
Definition canvasToDataURL {Canvas Blob : Type} (host : ExportHost Canvas Blob)
    (canvas : Canvas) (format : option string) (quality : option float)
    : outcome string :=
  let format := default "image/png" format in
  match convertToBlob host canvas format
          (if String.eqb format "image/jpeg" then quality else None) with
  | Rejected e => Rejected e
  | Resolved blob => readAsDataURL host blob
  end.

End CanvasExport.

(** ** Response formatting (packages/shared) *)

(** The two libraries the shared package formats with, on data that
    each of them turns into a string or throws on. [space] is the third
    argument of [JSON.stringify], when one is given. *)
Record Codec (Data : Type) : Type := {
  yaml_dump : Data -> outcome string;
  yaml_load : string -> outcome Data;
  JSON_stringify : Data -> option Z -> outcome string;
  JSON_parse : string -> outcome Data
}.
Arguments yaml_dump {Data} _ _.
Arguments yaml_load {Data} _ _.
Arguments JSON_stringify {Data} _ _ _.
Arguments JSON_parse {Data} _ _.

Module ResponseFormatter.

Inductive ResponseFormat : Type := JSON | YAML.

(** Configuration for response formatting. A field may hold [undefined]
    once a partial configuration that names it without a value has been
    merged in. *)
Record ResponseFormatterConfig : Type := {
  format : option ResponseFormat;
  prettyJson : option bool
}.

(** [Partial<ResponseFormatterConfig>]: each key absent ([None]) or
    present with its value, which may be [undefined]. *)
Record PartialConfig : Type := {
  formatKey : option (option ResponseFormat);
  prettyJsonKey : option (option bool)
}.

(** Default configuration - using YAML for better token efficiency. *)
Definition defaultConfig : ResponseFormatterConfig :=
  {| format := Some YAML; prettyJson := Some false |}.

(** Set the response format configuration: the new value of
    [currentConfig]. *)
Definition setResponseFormat (config : PartialConfig)
    (currentConfig : ResponseFormatterConfig) : ResponseFormatterConfig :=
  {| format := default (format currentConfig) (formatKey config);
     prettyJson := default (prettyJson currentConfig) (prettyJsonKey config) |}.

(** Get the current response format configuration. *)
Definition getResponseFormat (currentConfig : ResponseFormatterConfig)
    : ResponseFormatterConfig :=
  {| format := format currentConfig; prettyJson := prettyJson currentConfig |}.

(** Reset to default configuration. *)
Definition resetResponseFormat (currentConfig : ResponseFormatterConfig)
    : ResponseFormatterConfig :=
  defaultConfig.

(** Format data as JSON. *)
Definition formatAsJson {Data : Type} (lib : Codec Data)
    (currentConfig : ResponseFormatterConfig) (data : Data) : outcome string :=
  if default false (prettyJson currentConfig) then JSON_stringify lib data (Some 2)
  else JSON_stringify lib data None.

(** Format data as YAML. The second component is what was written with
    [console.error]. *)
Definition formatAsYaml {Data : Type} (lib : Codec Data)
    (currentConfig : ResponseFormatterConfig) (data : Data)
    : outcome string * list string :=
  match yaml_dump lib data with
  | Resolved text => (Resolved text, [])
  | Rejected error =>
      (formatAsJson lib currentConfig data,
       [("Failed to format as YAML, falling back to JSON: " ++ error)%string])
  end.

(** Format a response object according to the configured format. *)
Definition formatResponse {Data : Type} (lib : Codec Data)
    (currentConfig : ResponseFormatterConfig) (data : Data)
    (overrideFormat : option ResponseFormat) : outcome string * list string :=
  let format :=
    match overrideFormat with
    | Some f => Some f
    | None => format currentConfig
    end in
  match format with
  | Some YAML => formatAsYaml lib currentConfig data
  | _ => (formatAsJson lib currentConfig data, [])
  end.

(** Backwards compatibility: drop-in replacement for [JSON.stringify]. *)
Definition stringify {Data : Type} (lib : Codec Data)
    (currentConfig : ResponseFormatterConfig) (data : Data)
    : outcome string * list string :=
  formatResponse lib currentConfig data None.

End ResponseFormatter.

(** ** Serialization (packages/shared) *)

Module Serializer.

Record SerializerOptions : Type := {
  format : option string;
  pretty : option bool
}.

(** Serialize data to the specified format. The second component is
    what was written with [console.error]. *)
Definition serialize {Data : Type} (lib : Codec Data) (data : Data)
    (options : SerializerOptions) : outcome string * list string :=
  let format := default "yaml" (format options) in
  let pretty := default false (pretty options) in
  let attempt :=
    if String.eqb format "json" then
      if pretty then JSON_stringify lib data (Some 2)
      else JSON_stringify lib data None
    else if String.eqb format "yaml" then yaml_dump lib data
    else Rejected ("Unsupported format: " ++ format)%string in
  match attempt with
  | Resolved text => (Resolved text, [])
  | Rejected error =>
      (* Fallback to JSON if YAML serialization fails *)
      (JSON_stringify lib data (Some (if pretty then 2 else 0)),
       [("Serialization error with format " ++ format ++ ": " ++ error)%string])
  end.

(** Deserialize data from the specified format. *)
Definition deserialize {Data : Type} (lib : Codec Data) (data : string)
    (format : option string) : outcome Data * list string :=
  let format := default "yaml" format in
  let attempt :=
    if String.eqb format "json" then JSON_parse lib data
    else if String.eqb format "yaml" then yaml_load lib data
    else Rejected ("Unsupported format: " ++ format)%string in
  match attempt with
  | Resolved value => (Resolved value, [])
  | Rejected error =>
      (Rejected error,
       [("Deserialization error with format " ++ format ++ ": " ++ error)%string])
  end.

End Serializer.

(** * Properties *)

(** ** What the properties of the compressor are stated with *)

Module CompressSpec.
Import ImageUtils.

(** The attempt was encoded and its measured size exceeds the budget. *)
Definition overBudget (host : ImageHost) (imageDataUrl : string)
    (format : ImageFormat) (maxSizeBytes : Z) (a : Attempt) : Prop :=
  exists r,
    compressImageOnce host imageDataUrl (attemptScale a) (attemptQuality a) format
      = Resolved r
    /\ maxSizeBytes < getBase64Size (dataUrl r).

(** The tie-break policy between one attempt and the next. *)
Definition tieBreak (a a' : Attempt) : Prop :=
  if (0.3 <? attemptQuality a)%float then
    attemptQuality a' = Math_max 0.2 (attemptQuality a * 0.85)%float
    /\ attemptScale a' = attemptScale a
    /\ (attemptQuality a' <? 0.2)%float = false
  else
    attemptScale a' = Math_max 0.3 (attemptScale a * 0.85)%float
    /\ attemptQuality a' = attemptQuality a
    /\ (attemptScale a' <? 0.3)%float = false.

(** Every two attempts in a row are related by [R]. *)
Definition linked (R : Attempt -> Attempt -> Prop) (calls : list Attempt) : Prop :=
  forall (i : nat) (a a' : Attempt),
    calls !! i = Some a -> calls !! S i = Some a' -> R a a'.

(** The attempt [a] keeps the floors, given the first attempt [a0]: each
    parameter is the caller's own or not below its floor. *)
Definition floors (a0 a : Attempt) : Prop :=
  (attemptQuality a = attemptQuality a0 \/ (attemptQuality a <? 0.2)%float = false)
  /\ (attemptScale a = attemptScale a0 \/ (attemptScale a <? 0.3)%float = false).

(** The parameters [compressImage] starts from. *)
Definition firstAttempt (options : CompressOptions) : Attempt :=
  {| attemptScale := default 1.0%float (scale options);
     attemptQuality := default 0.8%float (quality options) |}.

(** An encoder whose output never fits, whatever the parameters. *)
Definition stubbornHost : ImageHost :=
  {| createImageBitmapFromUrl := fun _ =>
       Resolved {| width := 100; height := 100; pixels := "" |};
     getContext2d := true;
     encodeResized := fun _ _ _ _ _ => "data:image/jpeg;base64,AAAAAAAA" |}.

(** An encoder whose output shrinks with the quality: one base64
    character per percent of quality above 50, at least one. *)
Definition shrinkingHost : ImageHost :=
  {| createImageBitmapFromUrl := fun _ =>
       Resolved {| width := 100; height := 100; pixels := "" |};
     getContext2d := true;
     encodeResized := fun _ _ _ _ q =>
       ("data:image/jpeg;base64,A" ++
        (if (0.7 <? q)%float then "AAAA" else "") ++
        (if (0.6 <? q)%float then "AAAA" else ""))%string |}.

End CompressSpec.

(** ** What the properties of the compositor are stated with *)

Module CompositorSpec.
Import ImageUtils.

(** The source height of a part once clipped to the canvas: the height
    of its raster, or what is left of the canvas below [y]. *)
Definition clippedHeight (totalHeightPx : Z) (img : ImageBitmap) (y : Z) : Z :=
  Z.min (height img) (totalHeightPx - y).

(** What a part contributes to the canvas: nothing when it does not
    decode or when its clipped height is not positive, else one draw at
    [(0, y)]. *)
Definition partDraws (host : ImageHost) (totalHeightPx : Z) (part : Part.t)
    : list (DrawOp Z) :=
  match createImageBitmapFromUrl host (Part.dataUrl part) with
  | Resolved img =>
      let h := clippedHeight totalHeightPx img (Part.y part) in
      if h <=? 0 then []
      else [DrawImage img 0 0 (width img) h 0 (Part.y part) (width img) h]
  | Rejected _ => []
  end.

(** What a part writes with [console.error]. *)
Definition partErrors (host : ImageHost) (part : Part.t) : list string :=
  match createImageBitmapFromUrl host (Part.dataUrl part) with
  | Resolved _ => []
  | Rejected error => [("Error stitching image part: " ++ error)%string]
  end.

(** A draw stays above the bottom edge of a canvas of the given height. *)
Definition withinHeight (totalHeightPx : Z) (op : DrawOp Z) : Prop :=
  match op with
  | DrawImage _ _ _ _ sHeight _ dy _ _ => 0 < sHeight /\ dy + sHeight <= totalHeightPx
  | FillRect _ _ _ _ _ => True
  end.

(** The rectangle has no point in common with the raster. *)
Definition fullyOutside (img : ImageBitmap) (r : CropRect.t) : Prop :=
  width img <= CropRect.x r \/ CropRect.x r + CropRect.width r <= 0
  \/ height img <= CropRect.y r \/ CropRect.y r + CropRect.height r <= 0.

(** A host that decodes every payload but the empty one to a 100x100
    raster. *)
Definition squareHost : ImageHost :=
  {| createImageBitmapFromUrl := fun url =>
       if String.eqb url "" then Rejected "Failed to fetch"
       else Resolved {| width := 100; height := 100; pixels := url |};
     getContext2d := true;
     encodeResized := fun _ _ _ _ _ => "data:image/jpeg;base64,AAAA" |}.

End CompositorSpec.

(** ** What the properties of the upload tool are stated with *)

Module UploadSpec.
Import FileUpload.

(** The two failures of the input validation. *)
Definition ValidationError (r : ToolResult) : Prop :=
  r = createErrorResponse "Selector is required for file upload"
  \/ r = createErrorResponse "One of filePath, fileUrl, or base64Data must be provided".

(** The failure of the session acquisition on a tab that someone else
    has attached. *)
Definition AttachmentConflict (r : ToolResult) : Prop :=
  r = createErrorResponse ("Error uploading file: " ++ AlreadyAttached)%string.

(** How many of filePath, fileUrl and base64Data are present. *)
Definition sources (args : FileUploadToolParams) : nat :=
  (if truthy_string (filePath args) then 1 else 0)
  + (if truthy_string (fileUrl args) then 1 else 0)
  + (if truthy_string (base64Data args) then 1 else 0).

(** [st'] has a session only for tabs that have one in [st]. *)
Definition noNewSession (st st' : State) : Prop :=
  forall t : Z, activeDebuggers st !! t = None -> activeDebuggers st' !! t = None.

(** From [st] to [st'] the trace grew by [events]. *)
Definition grewBy (st st' : State) (events : list event) : Prop :=
  trace st' = trace st ++ events.

(** The target the browser reports as attached on the tab, if any: what
    [attachDebugger] finds. *)
Definition existingTarget (targets : list TargetInfo) (tabId : Z)
    : option TargetInfo :=
  List.find (fun t => eq_opt_Z (targetTabId t) tabId && attached t) targets.

(** The tab as DevTools or another extension holds it. *)
Definition inspected : list TargetInfo :=
  [ {| targetTabId := Some 3; attached := false; extensionId := None |};
    {| targetTabId := Some 7; attached := true; extensionId := None |} ].

(** The tab as this extension holds it. *)
Definition ownedBy (runtime_id : string) : list TargetInfo :=
  [ {| targetTabId := Some 7; attached := true; extensionId := Some runtime_id |} ].

Definition isGetTargets (e : event) : bool :=
  match e with
  | Issued debugger_getTargets => true
  | _ => false
  end.

Definition isAttach (e : event) : bool :=
  match e with
  | Issued (debugger_attach _ _) => true
  | _ => false
  end.

(** The arguments with another value of [multiple]. *)
Definition withMultiple (m : option bool) (args : FileUploadToolParams)
    : FileUploadToolParams :=
  {| selector := selector args;
     filePath := filePath args;
     fileUrl := fileUrl args;
     base64Data := base64Data args;
     fileName := fileName args;
     multiple := m |}.

(** A page with a file input: the answers of the protocol. *)
Definition answer (method : string) : CommandResult :=
  if String.eqb method "DOM.getDocument" then
    {| root := Some 1; resultNodeId := None; node := None |}
  else if String.eqb method "DOM.querySelector" then
    {| root := None; resultNodeId := Some 2; node := None |}
  else if String.eqb method "DOM.describeNode" then
    {| root := None; resultNodeId := None;
       node := Some {| nodeName := "INPUT"; attributes := Some ["id"; "f"; "type"; "file"] |} |}
  else {| root := None; resultNodeId := None; node := None |}.

(** A browser in which every call succeeds, on tab 7, with the given
    debugger targets and nothing removed. *)
Definition browserWith (targets : list TargetInfo) : Browser :=
  {| settle := fun A (c : call A) =>
       match c in call T return outcome T with
       | tabs_query => Resolved (Some 7)
       | prepareFileFromRemote _ _ _ => Resolved (Some "/tmp/staged.bin")
       | debugger_getTargets => Resolved targets
       | debugger_attach _ _ => Resolved tt
       | debugger_sendCommand _ method _ => Resolved (answer method)
       | debugger_detach _ => Resolved tt
       end;
     removedDuring := fun A (c : call A) => [] |}.

(** The same, but tab 7 is closed while the files are being set. *)
Definition closingBrowser : Browser :=
  {| settle := fun A (c : call A) => settle (browserWith []) c;
     removedDuring := fun A (c : call A) =>
       match c with
       | debugger_sendCommand _ method _ =>
           if String.eqb method "DOM.setFileInputFiles" then [7] else []
       | _ => []
       end |}.

Definition localUpload : FileUploadToolParams :=
  {| selector := "#f"; filePath := Some "/tmp/a.png"; fileUrl := None;
     base64Data := None; fileName := None; multiple := None |}.

Definition remoteUpload : FileUploadToolParams :=
  {| selector := "#f"; filePath := None; fileUrl := Some "http://x/y.bin";
     base64Data := None; fileName := None; multiple := Some true |}.

(** A call that gives both a local path and a remote URL. *)
Definition twoSources : FileUploadToolParams :=
  {| selector := "#f"; filePath := Some "/tmp/a.png";
     fileUrl := Some "http://x/y.bin";
     base64Data := None; fileName := None; multiple := None |}.

(** A browser like [browserWith []] whose page has an input that is not
    a file input. *)
Definition textInputBrowser : Browser :=
  {| settle := fun A (c : call A) =>
       match c in call T return outcome T with
       | debugger_sendCommand _ method _ =>
           if String.eqb method "DOM.describeNode" then
             Resolved {| root := None; resultNodeId := None;
                         node := Some {| nodeName := "INPUT";
                                         attributes := Some ["type"; "text"] |} |}
           else Resolved (answer method)
       | c => settle (browserWith []) c
       end;
     removedDuring := fun A (c : call A) => [] |}.

End UploadSpec.

(** ** What the further properties are stated with *)

Module MoreSpec.
Import ImageUtils.

(** Whether the text holds a comma. *)
Fixpoint hasComma (s : string) : bool :=
  match s with
  | EmptyString => false
  | String c rest => Ascii.eqb c ","%char || hasComma rest
  end.

(** The data URL of a payload: a header without comma, a comma, the
    payload. *)
Definition dataUrlOf (header payload : string) : string :=
  (header ++ "," ++ payload)%string.

(** The rectangle that [clampCrop] gives, as a rectangle. *)
Definition clampedRect (img : ImageBitmap) (r : CropRect.t) : CropRect.t :=
  let '(sx, sy, sWidth, sHeight) := clampCrop img r in
  {| CropRect.x := sx; CropRect.y := sy;
     CropRect.width := sWidth; CropRect.height := sHeight |}.

(** The rectangle lies within the raster. *)
Definition withinRaster (img : ImageBitmap) (r : CropRect.t) : Prop :=
  0 <= CropRect.x r /\ 0 <= CropRect.y r
  /\ CropRect.x r + CropRect.width r <= width img
  /\ CropRect.y r + CropRect.height r <= height img.

(** A host that encodes every raster to the same 8 characters. *)
Definition fixedHost : ImageHost :=
  {| createImageBitmapFromUrl := fun _ =>
       Resolved {| width := 640; height := 480; pixels := "" |};
     getContext2d := true;
     encodeResized := fun _ _ _ _ _ => "data:image/webp;base64,UklGRgAA" |}.

(** A host that decodes nothing. *)
Definition brokenHost : ImageHost :=
  {| createImageBitmapFromUrl := fun _ => Rejected "Failed to fetch";
     getContext2d := true;
     encodeResized := fun _ _ _ _ _ => "" |}.

(** The message is the response to the request: what [handleMessage]
    tests. *)
Definition answers (requestId : string) (message : Stager.Message) : bool :=
  String.eqb (Stager.type message) "file_operation_response"
  && eq_opt_string (Stager.responseToRequestId message) requestId.

(** What a matching response settles the promise with. *)
Definition reported (message : Stager.Message) : option string :=
  match Stager.payload message with
  | Some r =>
      if Stager.success r && truthy_string (Stager.filePath r)
      then Stager.filePath r else None
  | None => None
  end.

Definition isMessage (e : Stager.Event) : bool :=
  match e with Stager.MessageArrives _ => true | _ => false end.

Definition isAnswer (requestId : string) (e : Stager.Event) : bool :=
  match e with Stager.MessageArrives m => answers requestId m | _ => false end.

(** What holds of a call of [prepareFileFromRemote] at every moment. *)
Definition invariant (requestId : string) (p : Stager.Pending) : Prop :=
  Stager.pendingRequestId p = requestId
  /\ length (Stager.sent p) = 1%nat
  /\ Stager.addListenerCalls p = 1%nat
  /\ (Stager.resolved p = None ->
      Stager.listening p = true /\ Stager.timeout p = Some 30000)
  /\ (Stager.listening p = false ->
      Stager.timeout p = None /\ Stager.resolved p <> None).

(** The attribute list of the protocol: names and values in turn. *)
Definition flatAttributes (pairs : list (string * string)) : list string :=
  flat_map (fun p => [fst p; snd p]) pairs.

(** How many single quotes the text holds. *)
Fixpoint quotes (s : string) : nat :=
  match s with
  | EmptyString => 0
  | String c rest => (if Ascii.eqb c "'"%char then 1 else 0) + quotes rest
  end.

(** The tab, node and files of a DOM.setFileInputFiles command. *)
Definition setFilesOf (e : FileUpload.event) : option (Z * Z * list string) :=
  match e with
  | FileUpload.Issued
      (FileUpload.debugger_sendCommand t method
         (FileUpload.SetFileInputFilesParams nodeId fs)) =>
      if String.eqb method "DOM.setFileInputFiles" then Some (t, nodeId, fs) else None
  | _ => None
  end.

(** The node that DOM.describeNode answers with is an input of type
    file. *)
Definition describedFileInput (b : FileUpload.Browser) (t nodeId : Z) : Prop :=
  exists described n,
    FileUpload.settle b
      (FileUpload.debugger_sendCommand t "DOM.describeNode"
         (FileUpload.DescribeNodeParams nodeId)) = Resolved described
    /\ FileUpload.node described = Some n
    /\ FileUpload.nodeName n = "INPUT"
    /\ FileUpload.isFileInput (default [] (FileUpload.attributes n)) = true.

(** The methods of the protocol commands of a trace, in order. *)
Definition methodsOf (events : list FileUpload.event) : list string :=
  flat_map (fun e =>
              match e with
              | FileUpload.Issued (FileUpload.debugger_sendCommand _ method _) =>
                  [method]
              | _ => []
              end) events.

Definition isStaging (e : FileUpload.event) : bool :=
  match e with
  | FileUpload.Issued (FileUpload.prepareFileFromRemote _ _ _) => true
  | _ => false
  end.

(** A browser like [browserWith []] that refuses the attachment. *)
Definition refusingBrowser : FileUpload.Browser :=
  {| FileUpload.settle := fun A (c : FileUpload.call A) =>
       match c in FileUpload.call T return outcome T with
       | FileUpload.debugger_attach _ _ => Rejected "Cannot access a chrome:// URL"
       | c => FileUpload.settle (UploadSpec.browserWith []) c
       end;
     FileUpload.removedDuring := fun A (c : FileUpload.call A) => [] |}.

(** A browser like [browserWith []] whose native host stages nothing. *)
Definition unstagedBrowser : FileUpload.Browser :=
  {| FileUpload.settle := fun A (c : FileUpload.call A) =>
       match c in FileUpload.call T return outcome T with
       | FileUpload.prepareFileFromRemote _ _ _ => Resolved None
       | c => FileUpload.settle (UploadSpec.browserWith []) c
       end;
     FileUpload.removedDuring := fun A (c : FileUpload.call A) => [] |}.

(** A browser like [browserWith []] without an active tab. *)
Definition tablessBrowser : FileUpload.Browser :=
  {| FileUpload.settle := fun A (c : FileUpload.call A) =>
       match c in FileUpload.call T return outcome T with
       | FileUpload.tabs_query => Resolved None
       | c => FileUpload.settle (UploadSpec.browserWith []) c
       end;
     FileUpload.removedDuring := fun A (c : FileUpload.call A) => [] |}.

(** A protocol command or a detach: the calls that need a session. *)
Definition usesSession (e : FileUpload.event) : bool :=
  match e with
  | FileUpload.Issued (FileUpload.debugger_sendCommand _ _ _) => true
  | FileUpload.Issued (FileUpload.debugger_detach _) => true
  | _ => false
  end.

End MoreSpec.

(** ** What the properties of the shared package are stated with *)

Module SharedSpec.

(** The parsers read back what the printers have written. *)
Definition faithful {Data : Type} (lib : Codec Data) : Prop :=
  (forall d t, yaml_dump lib d = Resolved t -> yaml_load lib t = Resolved d)
  /\ (forall d space t,
        JSON_stringify lib d space = Resolved t -> JSON_parse lib t = Resolved d).

(** The indentation of the JSON that [serialize] falls back to. *)
Definition fallbackSpace (options : Serializer.SerializerOptions) : option Z :=
  Some (if default false (Serializer.pretty options) then 2 else 0).

(** The indentation [formatAsJson] asks for. *)
Definition configuredSpace (config : ResponseFormatter.ResponseFormatterConfig)
    : option Z :=
  if default false (ResponseFormatter.prettyJson config) then Some 2 else None.

(** Two partial configurations in one: the keys of the second win. *)
Definition merge (first second : ResponseFormatter.PartialConfig)
    : ResponseFormatter.PartialConfig :=
  {| ResponseFormatter.formatKey :=
       match ResponseFormatter.formatKey second with
       | Some v => Some v
       | None => ResponseFormatter.formatKey first
       end;
     ResponseFormatter.prettyJsonKey :=
       match ResponseFormatter.prettyJsonKey second with
       | Some v => Some v
       | None => ResponseFormatter.prettyJsonKey first
       end |}.

(** The partial configuration that names the format only. *)
Definition onlyFormat (f : option ResponseFormatter.ResponseFormat)
    : ResponseFormatter.PartialConfig :=
  {| ResponseFormatter.formatKey := Some f;
     ResponseFormatter.prettyJsonKey := None |}.

(** Text as data: a YAML printer that throws on one value, a JSON
    printer that takes every value. *)
Definition textCodec : Codec string :=
  {| yaml_dump := fun d =>
       if String.eqb d "" then Rejected "unacceptable kind of an object to dump"
       else Resolved d;
     yaml_load := fun t => Resolved t;
     JSON_stringify := fun d _ => Resolved d;
     JSON_parse := fun t => Resolved t |}.

End SharedSpec.

(** ** Floating-point order *)

Module FloatOrder.

Lemma SFcompare_antisym (x y : spec_float) (c : comparison) :
  SFcompare x y = Some c -> SFcompare y x = Some (CompOpp c).
Proof.
  destruct x as [sx| sx | | sx mx ex], y as [sy | sy | | sy my ey]; simpl;
    try discriminate;
    try (destruct sx; try destruct sy; intros [= <-]; reflexivity);
    try (destruct sy; intros [= <-]; reflexivity).
  destruct sx, sy; intros [= <-]; try reflexivity;
    rewrite (Z.compare_antisym ex ey); destruct (ex ?= ey)%Z; simpl; try reflexivity;
    rewrite (Pos.compare_cont_antisym); simpl; try reflexivity.
  all: destruct (Pos.compare_cont Eq mx my); reflexivity.
Qed.

Lemma ltb_asym (x y : float) : (x <? y)%float = true -> (y <? x)%float = false.
Proof.
  rewrite !ltb_spec. unfold SFltb.
  destruct (SFcompare (Prim2SF x) (Prim2SF y)) as [[]|] eqn:E; try discriminate.
  intros _. rewrite (SFcompare_antisym _ _ _ E). reflexivity.
Qed.

Lemma ltb_irrefl (x : float) : (x <? x)%float = false.
Proof.
  destruct (x <? x)%float eqn:E; [|reflexivity].
  pose proof (ltb_asym _ _ E). congruence.
Qed.

Lemma ltb_nan_l (x : float) : (nan <? x)%float = false.
Proof. rewrite ltb_spec. reflexivity. Qed.

(** [Math.max(a, x)] is never below [a]. *)
Lemma Math_max_not_below (a x : float) : (Math_max a x <? a)%float = false.
Proof.
  unfold Math_max.
  destruct (is_nan a || is_nan x); [apply ltb_nan_l|].
  destruct (a <? x)%float eqn:E1; [apply ltb_asym; exact E1|].
  destruct (x <? a)%float eqn:E2; [apply ltb_irrefl|].
  destruct (get_sign a); [exact E2 | apply ltb_irrefl].
Qed.

End FloatOrder.

(** ** The adaptive compressor *)

Module CompressFacts.
Import ImageUtils CompressSpec FloatOrder.

Lemma linked_one (R : Attempt -> Attempt -> Prop) (a : Attempt) : linked R [a].
Proof. intros [|i] x y Hx Hy; discriminate. Qed.

Lemma linked_cons (R : Attempt -> Attempt -> Prop) (a b : Attempt) (l : list Attempt) :
  R a b -> linked R (b :: l) -> linked R (a :: b :: l).
Proof.
  intros Hab Hl [|i] x y Hx Hy.
  - simpl in Hx, Hy. congruence.
  - exact (Hl i x y Hx Hy).
Qed.

Lemma adjust_tieBreak (a : Attempt) : tieBreak a (adjust a).
Proof.
  unfold tieBreak, adjust, COMPRESSION_CONFIG.QUALITY_THRESHOLD,
    COMPRESSION_CONFIG.MIN_QUALITY, COMPRESSION_CONFIG.MIN_SCALE,
    COMPRESSION_CONFIG.REDUCTION_FACTOR.
  destruct (0.3 <? attemptQuality a)%float; simpl;
    repeat split; apply Math_max_not_below.
Qed.

Lemma adjust_floors (a0 a : Attempt) : floors a0 a -> floors a0 (adjust a).
Proof.
  intros [Hq Hs]. pose proof (adjust_tieBreak a) as H. unfold tieBreak in H.
  destruct (0.3 <? attemptQuality a)%float; destruct H as (H1 & H2 & H3); split.
  - right. exact H3.
  - rewrite H2. exact Hs.
  - rewrite H2. exact Hq.
  - right. exact H3.
Qed.

Section Loop.
Variables (host : ImageHost) (imageDataUrl : string) (format : ImageFormat)
  (maxSizeBytes : Z).

Let once (a : Attempt) : outcome CompressResult :=
  compressImageOnce host imageDataUrl (attemptScale a) (attemptQuality a) format.

Let retry (a a' : Attempt) : Prop :=
  overBudget host imageDataUrl format maxSizeBytes a /\ a' = adjust a.

(** The loop, given fuel for the iterations that [attempts] leaves. *)
Lemma compressLoop_spec (fuel : nat) :
  forall (current : Attempt) (result : CompressResult) (attempts : Z),
    (Z.to_nat (COMPRESSION_CONFIG.MAX_ATTEMPTS - attempts) <= fuel)%nat ->
    once current = Resolved result ->
    exists res calls,
      compressLoop fuel host imageDataUrl format maxSizeBytes current result attempts
        = Some (res, calls)
      /\ linked retry (current :: calls)
      /\ Some res = once <$> last (current :: calls)
      /\ (length calls <= Z.to_nat (COMPRESSION_CONFIG.MAX_ATTEMPTS - attempts))%nat
      /\ (forall r, res = Resolved r ->
            getBase64Size (dataUrl r) <= maxSizeBytes
            \/ length calls = Z.to_nat (COMPRESSION_CONFIG.MAX_ATTEMPTS - attempts)).
Proof.
  unfold COMPRESSION_CONFIG.MAX_ATTEMPTS.
  induction fuel as [|fuel IH]; intros current result attempts Hfuel Hres; simpl;
    unfold COMPRESSION_CONFIG.MAX_ATTEMPTS.
  - destruct (getBase64Size (dataUrl result) >? maxSizeBytes) eqn:Hsize;
      destruct (attempts <? 10) eqn:Hatt; simpl; try lia.
    all: exists (Resolved result), []; refine (conj eq_refl (conj _ (conj _ (conj _ _))));
      [apply linked_one | simpl; congruence | simpl; lia
      | intros r [= <-]; try (left; lia); try (right; simpl; lia)].
  - destruct (getBase64Size (dataUrl result) >? maxSizeBytes) eqn:Hsize;
      destruct (attempts <? 10) eqn:Hatt; simpl.
    2-4: exists (Resolved result), []; refine (conj eq_refl (conj _ (conj _ (conj _ _))));
      [apply linked_one | simpl; congruence | simpl; lia
      | intros r [= <-]; try (left; lia); try (right; simpl; lia)].
    assert (Hover : overBudget host imageDataUrl format maxSizeBytes current).
    { exists result. split; [exact Hres | lia]. }
    fold (once (adjust current)).
    destruct (once (adjust current)) as [result'|e] eqn:Hnext.
    + destruct (IH (adjust current) result' (attempts + 1)) as
        (res & calls & Hrun & Hlink & Hlast & Hlen & Hfit); [lia | exact Hnext |].
      rewrite Hrun. exists res, (adjust current :: calls).
      refine (conj eq_refl (conj _ (conj _ (conj _ _)))).
      * apply linked_cons; [split; [exact Hover | reflexivity] | exact Hlink].
      * exact Hlast.
      * simpl. lia.
      * intros r Hr. destruct (Hfit r Hr) as [H|H]; [left; exact H | right; simpl; lia].
    + exists (Rejected e), [adjust current].
      refine (conj eq_refl (conj _ (conj _ (conj _ _)))).
      * apply linked_cons; [split; [exact Hover | reflexivity] | apply linked_one].
      * simpl. congruence.
      * simpl. lia.
      * intros r [=].
Qed.

End Loop.

Lemma linked_impl (R S : Attempt -> Attempt -> Prop) (l : list Attempt) :
  (forall a a', R a a' -> S a a') -> linked R l -> linked S l.
Proof. intros HRS Hl i a a' Ha Ha'. apply HRS. exact (Hl i a a' Ha Ha'). Qed.

(** Along the attempts of a loop, the floors are kept. *)
Lemma linked_floors (a0 : Attempt) (l : list Attempt) :
  linked (fun a a' => a' = adjust a) l ->
  head l = Some a0 ->
  Forall (floors a0) l.
Proof.
  intros Hl Hhd. apply Forall_lookup_2. intros i.
  induction i as [|i IH]; intros a Ha.
  - destruct l as [|x l]; [discriminate|]. simpl in Hhd, Ha.
    assert (a = a0) as -> by congruence. split; left; reflexivity.
  - destruct (lookup_lt_is_Some_2 l i) as [b Hb].
    { apply lookup_lt_Some in Ha. lia. }
    rewrite (Hl i b a Hb Ha). apply adjust_floors. exact (IH b Hb).
Qed.

(** Once the quality is not above the threshold it is never adjusted
    again: every later attempt has the same quality. *)
Lemma linked_quality_frozen (l : list Attempt) (i : nat) (a : Attempt) :
  linked (fun a a' => a' = adjust a) l ->
  l !! i = Some a ->
  (0.3 <? attemptQuality a)%float = false ->
  forall (k : nat) (b : Attempt),
    l !! (i + k)%nat = Some b -> attemptQuality b = attemptQuality a.
Proof.
  intros Hl Ha Hq k. induction k as [|k IH]; intros b Hb.
  - rewrite Nat.add_0_r in Hb. congruence.
  - destruct (lookup_lt_is_Some_2 l (i + k)) as [c Hc].
    { apply lookup_lt_Some in Hb. lia. }
    replace (i + S k)%nat with (S (i + k)) in Hb by lia.
    rewrite (Hl _ c b Hc Hb). specialize (IH c Hc).
    unfold adjust, COMPRESSION_CONFIG.QUALITY_THRESHOLD.
    rewrite IH, Hq. reflexivity.
Qed.

(** A retry changes the scale only when the quality is not above the
    threshold. *)
Lemma adjust_scale_changed (a : Attempt) :
  attemptScale (adjust a) <> attemptScale a ->
  (0.3 <? attemptQuality a)%float = false.
Proof.
  unfold adjust, COMPRESSION_CONFIG.QUALITY_THRESHOLD.
  destruct (0.3 <? attemptQuality a)%float; simpl; [congruence | reflexivity].
Qed.

(** [compressImage], for every host and every options: the calls it
    makes and the result it gives. *)
Lemma compressImage_spec (host : ImageHost) (imageDataUrl : string)
    (options : CompressOptions) :
  let format := default image_jpeg (format options) in
  let once (a : Attempt) :=
    compressImageOnce host imageDataUrl (attemptScale a) (attemptQuality a) format in
  exists res calls,
    compressImage host imageDataUrl options = Some (res, calls)
    /\ head calls = Some (firstAttempt options)
    /\ Some res = once <$> last calls
    /\ (length calls <= 11)%nat
    /\ linked (fun a a' => a' = adjust a) calls
    /\ (truthy_Z (maxSizeBytes options) = true ->
        linked (fun a a' =>
                  overBudget host imageDataUrl format
                    (default 0 (maxSizeBytes options)) a) calls
        /\ forall r, res = Resolved r ->
             getBase64Size (dataUrl r) <= default 0 (maxSizeBytes options)
             \/ length calls = 11%nat).
Proof.
  intros format once. unfold compressImage. fold (firstAttempt options).
  destruct (truthy_Z (maxSizeBytes options)) eqn:Hmax; cbn [negb].
  - change (compressImageOnce host imageDataUrl
              (default 1.0%float (scale options))
              (default 0.8%float (quality options))
              (default image_jpeg (ImageUtils.format options)))
      with (once (firstAttempt options)).
    destruct (once (firstAttempt options)) as [result|e] eqn:Hfirst.
    + destruct (compressLoop_spec host imageDataUrl format
                  (default 0 (maxSizeBytes options))
                  (Z.to_nat COMPRESSION_CONFIG.MAX_ATTEMPTS)
                  (firstAttempt options) result 0)
        as (res & calls & Hrun & Hlink & Hlast & Hlen & Hfit).
      { unfold COMPRESSION_CONFIG.MAX_ATTEMPTS. lia. }
      { exact Hfirst. }
      fold format. rewrite Hrun. exists res, (firstAttempt options :: calls).
      unfold COMPRESSION_CONFIG.MAX_ATTEMPTS in Hlen, Hfit.
      refine (conj eq_refl (conj eq_refl (conj Hlast (conj _ (conj _ _))))).
      * simpl. lia.
      * eapply linked_impl; [|exact Hlink]. intros a a' [_ H]. exact H.
      * intros _. split.
        -- eapply linked_impl; [|exact Hlink]. intros a a' [H _]. exact H.
        -- intros r Hr. destruct (Hfit r Hr) as [H|H]; [left; exact H|].
           right. simpl. lia.
    + exists (Rejected e), [firstAttempt options].
      refine (conj eq_refl (conj eq_refl (conj _ (conj _ (conj _ _))))).
      * simpl. congruence.
      * simpl. lia.
      * apply linked_one.
      * intros _. split; [apply linked_one | intros r [=]].
  - exists (once (firstAttempt options)), [firstAttempt options].
    refine (conj eq_refl (conj eq_refl (conj eq_refl (conj _ (conj _ _))))).
    + simpl. lia.
    + apply linked_one.
    + intros [=].
Qed.

(** C1. With [maxSizeBytes] set, [compressImage] returns, and the calls
    of [compressImageOnce] it made start from the caller's scale and
    quality; every attempt but the last was encoded over budget, and the
    attempt after it follows the tie-break policy: with the quality
    strictly above 0.3 the quality becomes [Math.max(0.2, quality * 0.85)],
    which is not below 0.2, and the scale is unchanged; otherwise the scale
    becomes [Math.max(0.3, scale * 0.85)], which is not below 0.3, and the
    quality is unchanged. The result is the result of the last attempt:
    within budget, or else that of the last attempt allowed, and a budget
    that is not met raises nothing. *)
Theorem compressImage_tie_break_policy (host : ImageHost) (imageDataUrl : string)
    (options : CompressOptions) (max : Z) :
  maxSizeBytes options = Some max ->
  max <> 0 ->
  let format := default image_jpeg (format options) in
  let once (a : Attempt) :=
    compressImageOnce host imageDataUrl (attemptScale a) (attemptQuality a) format in
  exists res calls,
    compressImage host imageDataUrl options = Some (res, calls)
    /\ head calls = Some (firstAttempt options)
    /\ linked (fun a a' =>
                overBudget host imageDataUrl format max a /\ tieBreak a a') calls
    /\ Some res = once <$> last calls
    /\ (forall r, res = Resolved r ->
          getBase64Size (dataUrl r) <= max \/ length calls = 11%nat).
Proof.
  intros Hmax Hnz format once.
  destruct (compressImage_spec host imageDataUrl options)
    as (res & calls & Hrun & Hhd & Hlast & _ & Hadj & Hbudget).
  assert (Ht : truthy_Z (maxSizeBytes options) = true).
  { rewrite Hmax. destruct max; [congruence | reflexivity | reflexivity]. }
  destruct (Hbudget Ht) as [Hover Hfit]. rewrite Hmax in Hover, Hfit. simpl in Hover, Hfit.
  exists res, calls. refine (conj Hrun (conj Hhd (conj _ (conj Hlast Hfit)))).
  intros i a a' Ha Ha'. split.
  - exact (Hover i a a' Ha Ha').
  - rewrite (Hadj i a a' Ha Ha'). apply adjust_tieBreak.
Qed.

Lemma compressImage_tie_break_policy_witness :
  let options :=
    {| scale := None; quality := None; format := None; maxSizeBytes := Some 5 |} in
  maxSizeBytes options = Some 5
  /\ 5 <> 0
  /\ exists res calls,
       compressImage shrinkingHost "data:image/png;base64,iVBORw0KGgo=" options
         = Some (res, calls)
       /\ head calls = Some (firstAttempt options)
       /\ linked (fun a a' =>
                   overBudget shrinkingHost "data:image/png;base64,iVBORw0KGgo="
                     image_jpeg 5 a /\ tieBreak a a') calls
       /\ Some res =
            (fun a => compressImageOnce shrinkingHost
                        "data:image/png;base64,iVBORw0KGgo="
                        (attemptScale a) (attemptQuality a) image_jpeg) <$> last calls
       /\ (forall r, res = Resolved r ->
             getBase64Size (dataUrl r) <= 5 \/ length calls = 11%nat).
Proof.
  intros options. split; [reflexivity | split; [lia |]].
  apply (compressImage_tie_break_policy shrinkingHost
           "data:image/png;base64,iVBORw0KGgo=" options 5); [reflexivity | lia].
Defined.

(** C6, as the code has it. For every call of [compressImage] the loop
    makes at most 10 retries after the first encode, 11 calls of
    [compressImageOnce] in all; in every attempt the quality is the
    caller's own or not below 0.2 and the scale is the caller's own or not
    below 0.3; a retry changes the scale only when the quality of the
    attempt before it is not above 0.3, and from such an attempt on the
    quality is never adjusted again. *)
Theorem compressImage_bounds (host : ImageHost) (imageDataUrl : string)
    (options : CompressOptions) :
  exists res calls,
    compressImage host imageDataUrl options = Some (res, calls)
    /\ (length calls <= 1 + 10)%nat
    /\ Forall (floors (firstAttempt options)) calls
    /\ (forall (i : nat) (a a' : Attempt),
          calls !! i = Some a -> calls !! S i = Some a' ->
          attemptScale a' <> attemptScale a ->
          (0.3 <? attemptQuality a)%float = false)
    /\ (forall (i k : nat) (a b : Attempt),
          calls !! i = Some a -> calls !! (i + k)%nat = Some b ->
          (0.3 <? attemptQuality a)%float = false ->
          attemptQuality b = attemptQuality a).
Proof.
  destruct (compressImage_spec host imageDataUrl options)
    as (res & calls & Hrun & Hhd & _ & Hlen & Hadj & _).
  exists res, calls. refine (conj Hrun (conj Hlen (conj _ (conj _ _)))).
  - apply linked_floors; assumption.
  - intros i a a' Ha Ha'. rewrite (Hadj i a a' Ha Ha'). apply adjust_scale_changed.
  - intros i k a b Ha Hb Hq. exact (linked_quality_frozen calls i a Hadj Ha Hq k b Hb).
Qed.

(** C6 as stated fails: against an encoder whose output never fits, the
    loop encodes 11 times, the first encode and 10 retries. *)
Lemma compressImage_eleven_encodes :
  exists res calls,
    compressImage stubbornHost "data:image/png;base64,iVBORw0KGgo="
      {| scale := Some 1%float; quality := Some 0.9%float;
         format := Some image_jpeg; maxSizeBytes := Some 4 |}
      = Some (res, calls)
    /\ ~ (length calls <= 10)%nat.
Proof.
  eexists. eexists. split; [vm_compute; reflexivity | simpl; lia].
Qed.

End CompressFacts.

(** ** The image compositor *)

Module CompositorFacts.
Import ImageUtils CompositorSpec.

(** One part: the canvas keeps its size and gains the part's draws, the
    console gains the part's errors. *)
Lemma stitchPart_spec (host : ImageHost) (totalHeightPx : Z)
    (canvas : OffscreenCanvas Z) (console : list string) (part : Part.t) :
  stitchPart host totalHeightPx (canvas, console) part
  = ({| canvasWidth := canvasWidth canvas;
        canvasHeight := canvasHeight canvas;
        drawn := drawn canvas ++ partDraws host totalHeightPx part |},
     console ++ partErrors host part).
Proof.
  unfold stitchPart, partDraws, partErrors, clippedHeight.
  destruct (createImageBitmapFromUrl host (Part.dataUrl part)) as [img|e].
  - destruct (Part.y part + height img >? totalHeightPx) eqn:Hclip.
    + replace (Z.min (height img) (totalHeightPx - Part.y part))
        with (totalHeightPx - Part.y part) by lia.
      destruct (totalHeightPx - Part.y part <=? 0); rewrite ?app_nil_r;
        [destruct canvas |]; reflexivity.
    + replace (Z.min (height img) (totalHeightPx - Part.y part))
        with (height img) by lia.
      destruct (height img <=? 0); rewrite ?app_nil_r;
        [destruct canvas |]; reflexivity.
  - rewrite app_nil_r. destruct canvas; reflexivity.
Qed.

Lemma stitch_fold (host : ImageHost) (totalHeightPx : Z) (parts : list Part.t) :
  forall (canvas : OffscreenCanvas Z) (console : list string),
    fold_left (stitchPart host totalHeightPx) parts (canvas, console)
    = ({| canvasWidth := canvasWidth canvas;
          canvasHeight := canvasHeight canvas;
          drawn := drawn canvas ++ flat_map (partDraws host totalHeightPx) parts |},
       console ++ flat_map (partErrors host) parts).
Proof.
  induction parts as [|part parts IH]; intros canvas console;
    cbn [fold_left flat_map].
  - rewrite !app_nil_r. destruct canvas; reflexivity.
  - rewrite stitchPart_spec, IH. cbn [canvasWidth canvasHeight drawn].
    rewrite <- !app_assoc. reflexivity.
Qed.

Lemma partDraws_withinHeight (host : ImageHost) (totalHeightPx : Z) (part : Part.t) :
  Forall (withinHeight totalHeightPx) (partDraws host totalHeightPx part).
Proof.
  unfold partDraws, clippedHeight.
  destruct (createImageBitmapFromUrl host (Part.dataUrl part)) as [img|e];
    [|constructor].
  destruct (Z.min (height img) (totalHeightPx - Part.y part) <=? 0) eqn:H;
    constructor; [simpl; lia | constructor].
Qed.

(** C8. When the canvas gives a context, [stitchImages] returns, for
    every list of parts: the canvas has the size asked for; its first
    drawing is a white fill of the whole canvas; then, part after part,
    one draw at [(0, y)] with the source height clipped to the canvas, or
    nothing when the part does not decode or when its clipped height is
    not positive; no draw goes below the bottom edge; and each part that
    does not decode leaves one line on the console. *)
Theorem stitchImages_best_effort (host : ImageHost) (parts : list Part.t)
    (totalWidthPx totalHeightPx : Z) :
  getContext2d host = true ->
  exists canvas console,
    stitchImages host parts totalWidthPx totalHeightPx = Resolved (canvas, console)
    /\ canvasWidth canvas = totalWidthPx
    /\ canvasHeight canvas = totalHeightPx
    /\ drawn canvas
       = FillRect "#FFFFFF" 0 0 totalWidthPx totalHeightPx
         :: flat_map (partDraws host totalHeightPx) parts
    /\ Forall (withinHeight totalHeightPx) (drawn canvas)
    /\ console = flat_map (partErrors host) parts.
Proof.
  intros Hctx. unfold stitchImages. rewrite Hctx. cbn [negb].
  rewrite stitch_fold. eexists. eexists. split; [reflexivity|].
  cbn [canvasWidth canvasHeight drawn draw app].
  repeat split.
  constructor; [exact I|].
  apply Forall_flat_map. apply Forall_forall. intros part _.
  apply partDraws_withinHeight.
Qed.

Lemma stitchImages_best_effort_witness :
  let parts :=
    [ {| Part.dataUrl := "data:image/png;base64,AAAA"; Part.y := 0 |};
      {| Part.dataUrl := ""; Part.y := 100 |};
      {| Part.dataUrl := "data:image/png;base64,BBBB"; Part.y := 100 |};
      {| Part.dataUrl := "data:image/png;base64,CCCC"; Part.y := 150 |} ] in
  getContext2d squareHost = true
  /\ exists canvas console,
       stitchImages squareHost parts 100 150 = Resolved (canvas, console)
       /\ canvasWidth canvas = 100
       /\ canvasHeight canvas = 150
       /\ drawn canvas
          = FillRect "#FFFFFF" 0 0 100 150 :: flat_map (partDraws squareHost 150) parts
       /\ Forall (withinHeight 150) (drawn canvas)
       /\ console = flat_map (partErrors squareHost) parts.
Proof.
  intros parts. split; [reflexivity|].
  apply (stitchImages_best_effort squareHost parts 100 150). reflexivity.
Defined.

(** The clamped rectangle is the requested one cut to the raster. *)
Lemma clampCrop_spec (img : ImageBitmap) (r : CropRect.t) :
  clampCrop img r
  = (Z.max 0 (CropRect.x r),
     Z.max 0 (CropRect.y r),
     Z.min (CropRect.x r + CropRect.width r) (width img) - Z.max 0 (CropRect.x r),
     Z.min (CropRect.y r + CropRect.height r) (height img) - Z.max 0 (CropRect.y r)).
Proof.
  unfold clampCrop. destruct r as [x y w h]. cbn [CropRect.x CropRect.y CropRect.width CropRect.height].
  destruct (x <? 0) eqn:Hx, (y <? 0) eqn:Hy; cbv zeta beta iota;
    match goal with
    | |- context [?a + ?b >? width img] => destruct (a + b >? width img) eqn:Hw
    end;
    match goal with
    | |- context [?a + ?b >? height img] => destruct (a + b >? height img) eqn:Hh
    end;
    repeat f_equal; lia.
Qed.

(** C7. For every call of [cropAndResizeImage] whose payload decodes:
    the source rectangle is the requested one cut to the raster (a
    negative origin becomes 0 and takes as much off the width or height, a
    far edge beyond the raster is cut to it); the call fails with the
    invalid crop size error exactly when the clamped width or height is
    not positive, and so for every rectangle fully outside the raster;
    when it succeeds its one draw reads a region within the raster; and
    the rectangle {x:-10, y:0, width:50, height:50} on a 100x100 raster
    gives x = 0 and width = 40. *)
Theorem cropAndResizeImage_clamps (host : ImageHost) (originalDataUrl : string)
    (cropRectPx : CropRect.t) (dpr targetWidthOpt targetHeightOpt : option float)
    (img : ImageBitmap) :
  createImageBitmapFromUrl host originalDataUrl = Resolved img ->
  let call :=
    cropAndResizeImage host originalDataUrl cropRectPx dpr
      targetWidthOpt targetHeightOpt in
  let '(sx, sy, sWidth, sHeight) := clampCrop img cropRectPx in
  sx = Z.max 0 (CropRect.x cropRectPx)
  /\ sy = Z.max 0 (CropRect.y cropRectPx)
  /\ sWidth = Z.min (CropRect.x cropRectPx + CropRect.width cropRectPx) (width img) - sx
  /\ sHeight = Z.min (CropRect.y cropRectPx + CropRect.height cropRectPx) (height img) - sy
  /\ (call = Rejected InvalidCropSize <-> sWidth <= 0 \/ sHeight <= 0)
  /\ (fullyOutside img cropRectPx -> call = Rejected InvalidCropSize)
  /\ (forall canvas, call = Resolved canvas ->
        (exists dWidth dHeight,
           drawn canvas
           = [DrawImage img sx sy sWidth sHeight 0%float 0%float dWidth dHeight])
        /\ 0 <= sx /\ 0 < sWidth /\ sx + sWidth <= width img
        /\ 0 <= sy /\ 0 < sHeight /\ sy + sHeight <= height img)
  /\ clampCrop {| width := 100; height := 100; pixels := "" |}
       {| CropRect.x := -10; CropRect.y := 0;
          CropRect.width := 50; CropRect.height := 50 |}
     = (0, 0, 40, 50).
Proof.
  intros Hdecode call. subst call. unfold cropAndResizeImage. rewrite Hdecode.
  rewrite clampCrop_spec.
  set (sx := Z.max 0 (CropRect.x cropRectPx)).
  set (sy := Z.max 0 (CropRect.y cropRectPx)).
  set (sWidth := Z.min (CropRect.x cropRectPx + CropRect.width cropRectPx) (width img) - sx).
  set (sHeight := Z.min (CropRect.y cropRectPx + CropRect.height cropRectPx) (height img) - sy).
  refine (conj eq_refl (conj eq_refl (conj eq_refl (conj eq_refl _)))).
  destruct ((sWidth <=? 0) || (sHeight <=? 0)) eqn:Hbad.
  - assert (Hle : sWidth <= 0 \/ sHeight <= 0).
    { apply orb_true_iff in Hbad. lia. }
    refine (conj _ (conj _ (conj _ eq_refl))).
    + split; [intros _; exact Hle | reflexivity].
    + reflexivity.
    + intros canvas [=].
  - assert (Hpos : 0 < sWidth /\ 0 < sHeight).
    { apply orb_false_iff in Hbad. lia. }
    refine (conj _ (conj _ (conj _ eq_refl))).
    + split; [|lia]. destruct (getContext2d host); cbn [negb]; intros [=].
    + unfold fullyOutside. subst sx sy sWidth sHeight. lia.
    + destruct (getContext2d host); cbn [negb]; intros canvas [= <-].
      split; [eexists; eexists; reflexivity|].
      subst sx sy sWidth sHeight. lia.
Qed.

Lemma cropAndResizeImage_clamps_witness :
  let img := {| width := 100; height := 100; pixels := "data:image/png;base64,AAAA" |} in
  let r := {| CropRect.x := -10; CropRect.y := 0;
              CropRect.width := 50; CropRect.height := 50 |} in
  let call := cropAndResizeImage squareHost "data:image/png;base64,AAAA" r None None None in
  createImageBitmapFromUrl squareHost "data:image/png;base64,AAAA" = Resolved img
  /\ let '(sx, sy, sWidth, sHeight) := clampCrop img r in
     sx = Z.max 0 (CropRect.x r)
     /\ sy = Z.max 0 (CropRect.y r)
     /\ sWidth = Z.min (CropRect.x r + CropRect.width r) (width img) - sx
     /\ sHeight = Z.min (CropRect.y r + CropRect.height r) (height img) - sy
     /\ (call = Rejected InvalidCropSize <-> sWidth <= 0 \/ sHeight <= 0)
     /\ (fullyOutside img r -> call = Rejected InvalidCropSize)
     /\ (forall canvas, call = Resolved canvas ->
           (exists dWidth dHeight,
              drawn canvas
              = [DrawImage img sx sy sWidth sHeight 0%float 0%float dWidth dHeight])
           /\ 0 <= sx /\ 0 < sWidth /\ sx + sWidth <= width img
           /\ 0 <= sy /\ 0 < sHeight /\ sy + sHeight <= height img)
     /\ clampCrop {| width := 100; height := 100; pixels := "" |}
          {| CropRect.x := -10; CropRect.y := 0;
             CropRect.width := 50; CropRect.height := 50 |}
        = (0, 0, 40, 50).
Proof.
  intros img r call. split; [reflexivity|].
  apply (cropAndResizeImage_clamps squareHost "data:image/png;base64,AAAA" r
           None None None img).
  reflexivity.
Defined.

End CompositorFacts.

(** ** The side-channel stager *)

Module StagerFacts.
Import Stager.

Section OneCall.
Variables (requestId : string) (fileUrl base64Data : option string)
  (fileName : string).

Let started : Pending := prepareFileFromRemote requestId fileUrl base64Data fileName.

(** One listener is added, one request is sent, and the timer is set to
    30000 ms. *)
Lemma prepareFileFromRemote_starts :
  addListenerCalls started = 1%nat
  /\ listening started = true
  /\ timeout started = Some 30000
  /\ length (sent started) = 1%nat
  /\ resolved started = None.
Proof. repeat split. Qed.

(** A matching response that reports a file: the timer is cleared, the
    listener removed, the promise resolved with the path. *)
Lemma matching_response_settles (path : string) :
  truthy_string (Some path) = true ->
  let response :=
    {| type := "file_operation_response";
       responseToRequestId := Some requestId;
       payload := Some {| success := true; filePath := Some path;
                          payloadError := None |};
       error := None |} in
  let p := steps started [MessageArrives response] in
  resolved p = Some (Some path)
  /\ listening p = false
  /\ removeListenerCalls p = 1%nat
  /\ timeout p = None.
Proof.
  intros Hpath response p. subst p started response.
  cbn [steps fold_left step prepareFileFromRemote listening handleMessage type
         responseToRequestId pendingRequestId eq_opt_string].
  unfold handleMessage.
  cbn [type responseToRequestId pendingRequestId prepareFileFromRemote
         eq_opt_string payload success filePath].
  rewrite !String.eqb_refl. cbn [andb]. rewrite Hpath. repeat split.
Qed.

(** A rejected send: the timer is cleared, the listener removed, the
    promise resolved with null. *)
Lemma send_failure_settles (reason : string) :
  let p := steps started [SendRejects reason] in
  resolved p = Some None
  /\ listening p = false
  /\ removeListenerCalls p = 1%nat
  /\ timeout p = None.
Proof. repeat split. Qed.

(** C3 fails on the timeout. When the 30000 ms timer fires before any
    response, the promise resolves with null, once and with no retry, but
    [removeListener] is not called: the listener stays registered on
    [chrome.runtime.onMessage]. *)
Theorem timeout_keeps_listener :
  let p := steps started [TimerFires] in
  resolved p = Some None
  /\ timeout p = None
  /\ length (sent p) = 1%nat
  /\ listening p = true
  /\ removeListenerCalls p = 0%nat.
Proof. repeat split. Qed.

(** The listener that the timeout left is removed only if the response
    still arrives; the promise keeps the null it resolved with. *)
Lemma late_response_removes_listener (path : string) :
  let response :=
    {| type := "file_operation_response";
       responseToRequestId := Some requestId;
       payload := Some {| success := true; filePath := Some path;
                          payloadError := None |};
       error := None |} in
  let p := steps started [TimerFires; MessageArrives response] in
  resolved p = Some None /\ listening p = false.
Proof.
  intros response p. subst p started response.
  cbn [steps fold_left step prepareFileFromRemote listening timeout onTimeout
         spent resolve console_error resolved].
  unfold handleMessage.
  cbn [type responseToRequestId pendingRequestId eq_opt_string payload success
         filePath].
  rewrite !String.eqb_refl. cbn [andb].
  destruct (truthy_string (Some path)); split; reflexivity.
Qed.

End OneCall.

End StagerFacts.

(** ** The file upload tool *)

Module UploadFacts.
Import FileUpload UploadSpec.

(** *** Runs *)

Lemma run_bind {R S : Type} (b : Browser) (p : prog R) (f : R -> prog S) :
  forall st : State,
    run b (bind p f) st = let '(r, st') := run b p st in run b (f r) st'.
Proof.
  induction p as [r | A c k IH | t k IH | t v k IH | t k IH | l k IH];
    intros st; cbn [bind run]; auto.
Qed.

Lemma run_bindE {A R : Type} (b : Browser) (p : prog (outcome A))
    (f : A -> prog (outcome R)) (st : State) :
  run b (bindE p f) st
  = let '(r, st') := run b p st in
    match r with
    | Resolved a => run b (f a) st'
    | Rejected e => (Rejected e, st')
    end.
Proof.
  unfold bindE. rewrite run_bind. destruct (run b p st) as [[a|e] st']; reflexivity.
Qed.

(** *** The session map along a run *)

Lemma onRemoved_debuggers (t : Z) (st : State) :
  activeDebuggers (onRemoved t st) = delete t (activeDebuggers st).
Proof.
  unfold onRemoved, has. cbn [observe activeDebuggers].
  case_bool_decide as Hhas; cbn [cleanupDebugger observe activeDebuggers].
  - reflexivity.
  - symmetry. apply delete_id. apply eq_None_not_Some. exact Hhas.
Qed.

Lemma onRemoved_trace (t : Z) (st : State) :
  trace (onRemoved t st) = trace st ++ [TabRemoved t].
Proof. unfold onRemoved. destruct (has t _); reflexivity. Qed.

Lemma deliver_None (removed : list Z) (t : Z) :
  forall st : State,
    activeDebuggers st !! t = None ->
    activeDebuggers (deliver removed st) !! t = None.
Proof.
  unfold deliver. induction removed as [|r removed IH]; intros st H; cbn [fold_left].
  - exact H.
  - apply IH. rewrite onRemoved_debuggers.
    destruct (decide (r = t)) as [->|Hne];
      [apply lookup_delete_eq | rewrite lookup_delete_ne; assumption].
Qed.

Lemma deliver_removed (removed : list Z) (t : Z) :
  forall st : State,
    In t removed -> activeDebuggers (deliver removed st) !! t = None.
Proof.
  induction removed as [|r removed IH]; intros st Hin; [destruct Hin|].
  change (deliver (r :: removed) st) with (deliver removed (onRemoved r st)).
  destruct Hin as [->|Hin].
  - apply deliver_None. rewrite onRemoved_debuggers. apply lookup_delete_eq.
  - apply IH. exact Hin.
Qed.

Lemma deliver_trace (removed : list Z) :
  forall st : State,
    trace (deliver removed st) = trace st ++ map TabRemoved removed.
Proof.
  unfold deliver. induction removed as [|r removed IH]; intros st; cbn [fold_left map].
  - symmetry. apply app_nil_r.
  - rewrite IH, onRemoved_trace, <- app_assoc. reflexivity.
Qed.

Lemma noNewSession_refl (st : State) : noNewSession st st.
Proof. intros t H. exact H. Qed.

Lemma noNewSession_trans (st1 st2 st3 : State) :
  noNewSession st1 st2 -> noNewSession st2 st3 -> noNewSession st1 st3.
Proof. intros H12 H23 t H. apply H23, H12, H. Qed.

Lemma noNewSession_deliver (removed : list Z) (st : State) :
  noNewSession st (deliver removed st).
Proof. intros t H. apply deliver_None. exact H. Qed.

Lemma has_false (t : Z) (st : State) :
  has t st = false -> activeDebuggers st !! t = None.
Proof.
  unfold has. intros H. apply bool_decide_eq_false in H.
  apply eq_None_not_Some. exact H.
Qed.

Lemma has_None (t : Z) (st : State) :
  activeDebuggers st !! t = None -> has t st = false.
Proof.
  unfold has. intros H. apply bool_decide_eq_false. rewrite H.
  intros [x Hx]. discriminate.
Qed.

(** Case analysis on what the code branches on next. *)
Ltac split_on x :=
  lazymatch x with
  | negb ?y => split_on y
  | andb ?y _ => split_on y
  | orb ?y _ => split_on y
  | _ => destruct x eqn:?
  end.

Ltac branch :=
  match goal with
  | |- context [match ?x with _ => _ end] => split_on x
  | |- context [property ?x] => destruct x eqn:?
  end.

Ltac exec :=
  cbn [run bind bindE await throw log property caught negb andb orb];
  repeat (branch;
          cbn [run bind bindE await throw log property caught negb andb orb]).

(** No session is left for [t] in a state built from one without. *)
Ltac no_session :=
  repeat first
    [ assumption
    | apply lookup_delete_eq
    | apply has_false; assumption
    | progress cbn [activeDebuggers observe writeConsole setDebuggers]
    | apply deliver_None
    | rewrite lookup_delete_ne by congruence
    | rewrite lookup_insert_ne by congruence ].

Lemma detachDebugger_releases (b : Browser) (t : Z) (st st' : State) (r : unit) :
  run b (detachDebugger t) st = (r, st') ->
  activeDebuggers st' !! t = None /\ noNewSession st st'.
Proof.
  unfold detachDebugger. exec; intros [= <- <-];
    (split; [no_session | intros t' Ht'; destruct (decide (t = t')) as [->|Hne]; no_session]).
Qed.

(** The catch block answers with the error, and leaves no session for
    the tab it knows. *)
Lemma caught_spec (b : Browser) (tabId : option Z) (e : string)
    (st st' : State) (r : ToolResult) :
  run b (caught tabId e) st = (r, st') ->
  r = createErrorResponse ("Error uploading file: " ++ e)%string
  /\ noNewSession st st'
  /\ (forall t, tabId = Some t -> activeDebuggers st' !! t = None).
Proof.
  unfold caught, detachDebugger. exec; intros [= <- <-].
  all: split; [reflexivity|]; split;
    [ intros t' Ht';
      try match goal with
          | H : has ?t _ = _ |- _ => destruct (decide (t = t')) as [->|Hne]
          end; no_session
    | intros t' Ht'; first [discriminate Ht' | injection Ht' as <-; no_session] ].
Qed.

(** The try block from the attachment on adds a session for no other
    tab, and when it returns normally it has released its own and answers
    with the files it was given. *)
Lemma upload_spec (b : Browser) (runtime_id selector : string) (t : Z)
    (fs : list string) (st st' : State) (r : outcome ToolResult) :
  run b (upload runtime_id selector t fs) st = (r, st') ->
  (forall t', t' <> t ->
     activeDebuggers st !! t' = None -> activeDebuggers st' !! t' = None)
  /\ (forall res, r = Resolved res ->
        activeDebuggers st' !! t = None
        /\ res = createSuccessResponse
                  {| success := true;
                     message := "File(s) uploaded successfully";
                     files := fs;
                     dataSelector := selector;
                     fileCount := Z.of_nat (length fs) |}).
Proof.
  unfold upload, attachDebugger, detachDebugger. exec; intros [= <- <-].
  all: split;
    [ intros t' Hne Ht'; no_session
    | intros res Hres;
      first [ discriminate Hres
            | injection Hres as <-; split; [no_session | reflexivity] ] ].
Qed.

(** Execution of [execute] down to its try block: [upload] and [caught]
    are left to their lemmas. *)
Ltac exec_outer :=
  unfold execute, prepareFiles;
  cbn [run bind bindE await throw log negb andb orb];
  repeat (first [branch | rewrite run_bind];
          cbn [run bind bindE await throw log negb andb orb]).

(** A call leaves no session that was not there before it. *)
Lemma execute_noNewSession (b : Browser) (runtime_id : string)
    (args : FileUploadToolParams) (st st' : State) (r : ToolResult) :
  run b (execute runtime_id args) st = (r, st') -> noNewSession st st'.
Proof.
  exec_outer.
  all: try (intros [= <- <-]).
  all: try match goal with
       | |- run _ (caught _ _) _ = _ -> _ =>
           let H := fresh in intros H; apply caught_spec in H;
           destruct H as (_ & Hcaught & Hgone)
       end.
  all: try match goal with
       | H : run _ (upload _ _ _ _) _ = _ |- _ =>
           apply upload_spec in H; destruct H as [Hframe Hdone]
       end.
  all: intros t' Ht'.
  all: first
    [ no_session; fail
    | match goal with
      | Hframe : forall t', t' <> ?tab -> _ |- activeDebuggers _ !! ?t = None =>
          destruct (decide (t = tab)) as [->|Hne];
          [ first [ apply Hgone; reflexivity | apply (Hdone _ eq_refl) ]
          | try apply Hcaught; apply Hframe; [exact Hne | no_session] ]
      end
    | apply Hcaught; no_session ].
Qed.

Lemma runAll_noNewSession (runtime_id : string)
    (calls : list (Browser * FileUploadToolParams)) :
  forall (st st' : State) (results : list ToolResult),
    runAll runtime_id calls st = (results, st') ->
    noNewSession st st' /\ length results = length calls.
Proof.
  induction calls as [|[b args] calls IH]; intros st st' results; cbn [runAll].
  - intros [= <- <-]. split; [apply noNewSession_refl | reflexivity].
  - destruct (run b (execute runtime_id args) st) as [r st1] eqn:Hrun.
    destruct (runAll runtime_id calls st1) as [rs st2] eqn:Hrest.
    intros [= <- <-]. destruct (IH _ _ _ Hrest) as [Hnew Hlen]. split.
    + eapply noNewSession_trans; [|exact Hnew].
      eapply execute_noNewSession. exact Hrun.
    + cbn [length]. rewrite Hlen. reflexivity.
Qed.

(** The result is neither a success nor an answer of the catch block. *)
Ltac not_from_try H :=
  destruct H as [H | [? H]];
  [ discriminate H
  | unfold createErrorResponse in H; simpl in H; discriminate H ].

(** Once the try block has a tab, a call that ends in success or in the
    catch block leaves no session for the tab. *)
Lemma execute_releases (b : Browser) (runtime_id : string)
    (args : FileUploadToolParams) (st st' : State) (r : ToolResult) (t : Z) :
  run b (execute runtime_id args) st = (r, st') ->
  settle b tabs_query = Resolved (Some t) ->
  isError r = false
  \/ (exists e, r = createErrorResponse ("Error uploading file: " ++ e)%string) ->
  activeDebuggers st' !! t = None.
Proof.
  intros Hrun Htab Hr. revert Hrun. exec_outer.
  all: try discriminate Htab.
  all: try (injection Htab as ->).
  all: try (intros [= <- <-]; not_from_try Hr).
  all: try match goal with
       | |- run _ (caught _ _) _ = _ -> _ =>
           let H := fresh in intros H; apply caught_spec in H;
           destruct H as (_ & _ & Hgone); apply Hgone; reflexivity
       end.
  all: intros [= <- <-].
  all: match goal with
       | H : run _ (upload _ _ _ _) _ = _ |- _ =>
           apply upload_spec in H; destruct H as [_ Hdone];
           apply (Hdone _ eq_refl)
       end.
Qed.

(** [multiple] is read and never used. *)
Lemma execute_ignores_multiple (runtime_id : string) (args : FileUploadToolParams)
    (m : option bool) :
  execute runtime_id (withMultiple m args) = execute runtime_id args.
Proof. reflexivity. Qed.

(** C10. Every call of [execute] that succeeds returns exactly one staged
    file path and the count 1, whatever the kind of source, and with any
    value of [multiple] the run is the same: same result, same calls,
    same sessions. *)
Theorem execute_one_file (b : Browser) (runtime_id : string)
    (args : FileUploadToolParams) (st st' : State) (r : ToolResult) :
  run b (execute runtime_id args) st = (r, st') ->
  isError r = false ->
  (exists path,
     r = createSuccessResponse
           {| success := true;
              message := "File(s) uploaded successfully";
              files := [path];
              dataSelector := selector args;
              fileCount := 1 |})
  /\ (forall m, run b (execute runtime_id (withMultiple m args)) st = (r, st')).
Proof.
  intros Hrun Hok. split; [|intros m; rewrite execute_ignores_multiple; exact Hrun].
  revert Hrun. exec_outer.
  all: try (intros [= <- <-]; discriminate Hok).
  all: try match goal with
       | |- run _ (caught _ _) _ = _ -> _ =>
           let H := fresh in intros H; apply caught_spec in H;
           destruct H as (-> & _ & _); discriminate Hok
       end.
  all: intros [= <- <-].
  all: match goal with
       | H : run _ (upload _ _ _ _) _ = _ |- _ =>
           apply upload_spec in H; destruct H as [_ Hdone];
           destruct (Hdone _ eq_refl) as [_ ->]
       end.
  all: eexists; reflexivity.
Qed.

Lemma execute_one_file_witness :
  let out := run (browserWith []) (execute "ext" remoteUpload) initial in
  run (browserWith []) (execute "ext" remoteUpload) initial = (out.1, out.2)
  /\ isError out.1 = false
  /\ (exists path,
        out.1 = createSuccessResponse
                  {| success := true;
                     message := "File(s) uploaded successfully";
                     files := [path];
                     dataSelector := selector remoteUpload;
                     fileCount := 1 |})
  /\ (forall m,
        run (browserWith []) (execute "ext" (withMultiple m remoteUpload)) initial
        = (out.1, out.2)).
Proof.
  intros out. split; [reflexivity | split; [reflexivity|]].
  apply (execute_one_file (browserWith []) "ext" remoteUpload initial out.2 out.1);
    reflexivity.
Defined.

(** *** The trace along a run *)

Lemma grewBy_refl (st : State) : grewBy st st [].
Proof. unfold grewBy. symmetry. apply app_nil_r. Qed.

Lemma grewBy_observe (st X : State) (events : list event) (e : event) :
  grewBy st X events -> grewBy st (observe e X) (events ++ [e]).
Proof. unfold grewBy. cbn [trace observe]. intros ->. symmetry. apply app_assoc. Qed.

Lemma grewBy_deliver (st X : State) (events : list event) (removed : list Z) :
  grewBy st X events ->
  grewBy st (deliver removed X) (events ++ map TabRemoved removed).
Proof. unfold grewBy. rewrite deliver_trace. intros ->. symmetry. apply app_assoc. Qed.

Lemma grewBy_writeConsole (st X : State) (events : list event) (line : string) :
  grewBy st X events -> grewBy st (writeConsole line X) events.
Proof. exact (fun H => H). Qed.

Lemma grewBy_setDebuggers (st X : State) (events : list event) (m : gmap Z bool) :
  grewBy st X events -> grewBy st (setDebuggers m X) events.
Proof. exact (fun H => H). Qed.

Lemma Forall_TabRemoved (P : event -> Prop) (removed : list Z) :
  (forall t, P (TabRemoved t)) -> Forall P (map TabRemoved removed).
Proof. intros H. apply Forall_map. apply Forall_forall. intros t _. apply H. Qed.

Lemma existsb_TabRemoved (f : event -> bool) (removed : list Z) :
  (forall t, f (TabRemoved t) = false) -> existsb f (map TabRemoved removed) = false.
Proof.
  intros H. induction removed as [|t removed IH]; [reflexivity|].
  cbn [map existsb]. rewrite H, IH. reflexivity.
Qed.

(** The events between two states, read off the later one. *)
Ltac grew :=
  repeat match goal with
    | |- grewBy _ (writeConsole _ _) _ => eapply grewBy_writeConsole
    | |- grewBy _ (setDebuggers _ _) _ => eapply grewBy_setDebuggers
    | |- grewBy _ (deliver _ _) _ => eapply grewBy_deliver
    | |- grewBy _ (observe _ _) _ => eapply grewBy_observe
    | H : grewBy ?s0 ?s _ |- grewBy ?s0 ?s _ => exact H
    | |- grewBy ?s ?s _ => apply grewBy_refl
    end.

Ltac all_events :=
  repeat match goal with
    | H : Forall ?P ?l |- Forall ?P ?l => exact H
    | |- Forall _ [] => apply Forall_nil_2
    | |- Forall _ (_ ++ _) => apply Forall_app; split
    | |- Forall _ (map TabRemoved _) => apply Forall_TabRemoved; intros ?; reflexivity
    | |- Forall _ (_ :: _) => apply Forall_cons; split; [reflexivity|]
    end.

(** *** The session acquisition *)

(** On a tab that someone else has attached, [attachDebugger] throws
    after it has read the targets, and attaches nothing. *)
Lemma attachDebugger_conflict (b : Browser) (runtime_id : string) (t : Z)
    (targets : list TargetInfo) (target : TargetInfo) (st : State) :
  settle b debugger_getTargets = Resolved targets ->
  existingTarget targets t = Some target ->
  eq_opt_string (extensionId target) runtime_id = false ->
  run b (attachDebugger runtime_id t) st
  = (Rejected AlreadyAttached,
     deliver (removedDuring b debugger_getTargets)
       (observe (Issued debugger_getTargets) st)).
Proof.
  unfold existingTarget. intros Htargets Hfind Hother.
  unfold attachDebugger. cbn [run bind bindE await]. rewrite Htargets.
  cbn [run bind bindE await]. rewrite Hfind, Hother. reflexivity.
Qed.

(** On a tab that this extension has attached, [attachDebugger] returns
    after it has read the targets: no attach, no change of the sessions
    but the clean-up of removed tabs. *)
Lemma attachDebugger_idempotent (b : Browser) (runtime_id : string) (t : Z)
    (targets : list TargetInfo) (target : TargetInfo) (st : State) :
  settle b debugger_getTargets = Resolved targets ->
  existingTarget targets t = Some target ->
  eq_opt_string (extensionId target) runtime_id = true ->
  run b (attachDebugger runtime_id t) st
  = (Resolved tt,
     writeConsole "Debugger already attached by this extension"
       (deliver (removedDuring b debugger_getTargets)
          (observe (Issued debugger_getTargets) st))).
Proof.
  unfold existingTarget. intros Htargets Hfind Hown.
  unfold attachDebugger. cbn [run bind bindE await]. rewrite Htargets.
  cbn [run bind bindE await]. rewrite Hfind, Hown. reflexivity.
Qed.

Lemma upload_conflict (b : Browser) (runtime_id selector : string) (t : Z)
    (fs : list string) (targets : list TargetInfo) (target : TargetInfo)
    (st : State) :
  settle b debugger_getTargets = Resolved targets ->
  existingTarget targets t = Some target ->
  eq_opt_string (extensionId target) runtime_id = false ->
  run b (upload runtime_id selector t fs) st
  = (Rejected AlreadyAttached,
     deliver (removedDuring b debugger_getTargets)
       (observe (Issued debugger_getTargets) st)).
Proof.
  intros Htargets Hfind Hother. unfold upload.
  rewrite run_bindE, (attachDebugger_conflict b runtime_id t targets target st);
    auto.
Qed.

(** The catch block on a tab without a session: no call is issued. *)
Lemma caught_quiet (b : Browser) (t : Z) (e : string) (st : State) :
  activeDebuggers st !! t = None ->
  run b (caught (Some t) e) st
  = (createErrorResponse ("Error uploading file: " ++ e)%string,
     writeConsole ("Error in file upload operation: " ++ e)%string st).
Proof.
  intros Hnone. unfold caught. cbn [run bind].
  replace (has t (writeConsole ("Error in file upload operation: " ++ e)%string st))
    with false by (symmetry; apply has_None; exact Hnone).
  reflexivity.
Qed.

(** From a held tab on, no attach is issued by the try block. *)
Lemma upload_own_trace (b : Browser) (runtime_id selector : string) (t : Z)
    (fs : list string) (targets : list TargetInfo) (target : TargetInfo)
    (st0 st st' : State) (ev0 : list event) (r : outcome ToolResult) :
  settle b debugger_getTargets = Resolved targets ->
  existingTarget targets t = Some target ->
  eq_opt_string (extensionId target) runtime_id = true ->
  grewBy st0 st ev0 ->
  Forall (fun e => isAttach e = false) ev0 ->
  run b (upload runtime_id selector t fs) st = (r, st') ->
  exists events,
    grewBy st0 st' events /\ Forall (fun e => isAttach e = false) events.
Proof.
  unfold existingTarget. intros Htargets Hfind Hown Hgrew Hev0.
  unfold upload, attachDebugger, detachDebugger.
  cbn [run bind bindE await]. rewrite Htargets.
  cbn [run bind bindE await]. rewrite Hfind, Hown.
  exec; intros [= <- <-]; eexists; (split; [grew | all_events]).
Qed.

(** The catch block issues no attach. *)
Lemma caught_trace (b : Browser) (tabId : option Z) (e : string)
    (st0 st st' : State) (ev0 : list event) (r : ToolResult) :
  grewBy st0 st ev0 ->
  Forall (fun e => isAttach e = false) ev0 ->
  run b (caught tabId e) st = (r, st') ->
  exists events,
    grewBy st0 st' events /\ Forall (fun e => isAttach e = false) events.
Proof.
  intros Hgrew Hev0. unfold caught, detachDebugger.
  exec; intros [= <- <-]; eexists; (split; [grew | all_events]).
Qed.

(** The trace holds no request for the targets. *)
Ltac no_getTargets H :=
  rewrite ?existsb_app in H; cbn [existsb isGetTargets orb] in H;
  rewrite ?existsb_TabRemoved in H by reflexivity;
  cbn [orb] in H; discriminate H.

(** C5. A call of [execute] on a tab for which the browser reports an
    attached target. When the target is not this extension's, the
    acquisition throws the already-attached error with nothing attached;
    and when this tool holds no session for the tab, the call ends in an
    error without any attach, protocol command or detach, which is the
    attachment conflict as soon as the call got as far as the acquisition.
    When the target is this extension's, the acquisition returns at once,
    and the whole call issues no attach. *)
Theorem execute_attached_tab (b : Browser) (runtime_id : string)
    (args : FileUploadToolParams) (st st' : State) (r : ToolResult)
    (t : Z) (targets : list TargetInfo) (target : TargetInfo) :
  settle b tabs_query = Resolved (Some t) ->
  settle b debugger_getTargets = Resolved targets ->
  existingTarget targets t = Some target ->
  run b (execute runtime_id args) st = (r, st') ->
  (eq_opt_string (extensionId target) runtime_id = false ->
     (forall st1,
        run b (attachDebugger runtime_id t) st1
        = (Rejected AlreadyAttached,
           deliver (removedDuring b debugger_getTargets)
             (observe (Issued debugger_getTargets) st1)))
     /\ (activeDebuggers st !! t = None ->
         isError r = true
         /\ exists events,
              grewBy st st' events
              /\ Forall (fun e => isDebuggerCall e = false) events
              /\ (existsb isGetTargets events = true -> AttachmentConflict r)))
  /\ (eq_opt_string (extensionId target) runtime_id = true ->
      (forall st1,
         run b (attachDebugger runtime_id t) st1
         = (Resolved tt,
            writeConsole "Debugger already attached by this extension"
              (deliver (removedDuring b debugger_getTargets)
                 (observe (Issued debugger_getTargets) st1))))
      /\ exists events,
           grewBy st st' events /\ Forall (fun e => isAttach e = false) events).
Proof.
  intros Htab Htargets Hfind Hrun. split; intros Hext; split.
  - intros st1. eapply attachDebugger_conflict; eassumption.
  - intros Hnone. revert Hrun. exec_outer.
    all: try discriminate Htab.
    all: try (injection Htab as ->).
    all: try (intros [= <- <-]; split; [reflexivity|]; eexists;
              split; [grew | split; [all_events | intros H; no_getTargets H]]; fail).
    all: try match goal with
         | H : run _ (upload _ _ _ _) _ = _ |- _ =>
             cbn [from_option id] in H;
             rewrite (upload_conflict _ _ _ _ _ _ _ _ Htargets Hfind Hext) in H;
             first [discriminate H | injection H as <- <-]
         end.
    all: cbn [from_option id]; rewrite caught_quiet by no_session.
    all: intros [= <- <-]; split; [reflexivity|]; eexists;
         split; [grew | split; [all_events |]].
    all: first [intros _; reflexivity | intros H; no_getTargets H].
  - intros st1. eapply attachDebugger_idempotent; eassumption.
  - revert Hrun. exec_outer.
    all: try discriminate Htab.
    all: try (injection Htab as ->).
    all: try (intros [= <- <-]; eexists; split; [grew | all_events]; fail).
    all: try (intros Hc; eapply caught_trace; [ | | exact Hc]; [grew | all_events]; fail).
    all: try match goal with
         | H : run _ (upload _ _ _ _) _ = _ |- _ =>
             cbn [from_option id] in H;
             eapply (upload_own_trace _ _ _ _ _ _ _ st) in H;
             [ | exact Htargets | exact Hfind | exact Hext | grew | all_events ];
             destruct H as (ev & Hgrew & Hall)
         end.
    all: try (intros [= <- <-]; eexists; split; eassumption).
    all: intros Hc; eapply caught_trace; [ | | exact Hc]; eassumption.
Qed.

Lemma execute_attached_tab_witness :
  let b := browserWith inspected in
  let target := {| targetTabId := Some 7; attached := true; extensionId := None |} in
  let out := run b (execute "ext" localUpload) initial in
  settle b tabs_query = Resolved (Some 7)
  /\ settle b debugger_getTargets = Resolved inspected
  /\ existingTarget inspected 7 = Some target
  /\ run b (execute "ext" localUpload) initial = (out.1, out.2)
  /\ eq_opt_string (extensionId target) "ext" = false
  /\ activeDebuggers initial !! 7 = None
  /\ isError out.1 = true
  /\ exists events,
       grewBy initial out.2 events
       /\ Forall (fun e => isDebuggerCall e = false) events
       /\ (existsb isGetTargets events = true -> AttachmentConflict out.1).
Proof.
  intros b target out.
  pose proof (execute_attached_tab b "ext" localUpload initial out.2 out.1 7
                inspected target eq_refl eq_refl eq_refl eq_refl) as [Hother _].
  destruct (Hother eq_refl) as [_ Hquiet].
  do 6 (split; [reflexivity|]). exact (Hquiet eq_refl).
Defined.

(** *** Validation *)

Lemma falsy_selector (s : string) : truthy_string (Some s) = false <-> s = "".
Proof. destruct s; simpl; split; congruence. Qed.

Lemma no_sources (args : FileUploadToolParams) :
  sources args = 0%nat
  <-> truthy_string (filePath args) = false
      /\ truthy_string (fileUrl args) = false
      /\ truthy_string (base64Data args) = false.
Proof.
  unfold sources.
  destruct (truthy_string (filePath args)), (truthy_string (fileUrl args)),
    (truthy_string (base64Data args)); simpl; split;
    try discriminate; try (intros (? & ? & ?); discriminate);
    try (intros _; repeat split; reflexivity); reflexivity.
Qed.

(** What the try block and its early returns answer is no validation
    error. *)
Lemma not_ValidationError (r : ToolResult) :
  isError r = false
  \/ (exists e, r = createErrorResponse ("Error uploading file: " ++ e)%string)
  \/ r = createErrorResponse "No active tab found"
  \/ r = createErrorResponse "Failed to prepare file for upload" ->
  ~ ValidationError r.
Proof.
  unfold ValidationError, createErrorResponse.
  intros [H | [[e ->] | [-> | ->]]] [V | V];
    try (rewrite V in H; discriminate H); simpl in V; discriminate V.
Qed.

(** C2, as the code has it. A call of [execute] fails with a validation
    error exactly when the selector is empty or none of filePath, fileUrl
    and base64Data is present, and then it issues no call at all and
    leaves the sessions as they were; a call with two or more sources
    passes the validation. *)
Theorem execute_validation (b : Browser) (runtime_id : string)
    (args : FileUploadToolParams) (st st' : State) (r : ToolResult) :
  run b (execute runtime_id args) st = (r, st') ->
  (ValidationError r <-> selector args = "" \/ sources args = 0%nat)
  /\ (ValidationError r ->
      trace st' = trace st /\ activeDebuggers st' = activeDebuggers st).
Proof.
  rewrite <- falsy_selector, no_sources. exec_outer.
  all: try (intros [= <- <-]).
  all: try match goal with
       | |- run _ (caught _ _) _ = _ -> _ =>
           let H := fresh in intros H; apply caught_spec in H;
           destruct H as (-> & _ & _)
       end.
  all: try match goal with
       | H : run _ (upload _ _ _ _) _ = _ |- _ =>
           apply upload_spec in H; destruct H as [_ Hdone];
           destruct (Hdone _ eq_refl) as [_ ->]
       end.
  all: first
    [ (* a validation error *)
      split; [|intros _; split; reflexivity];
      split; [intros _ | intros _; first [left; reflexivity | right; reflexivity]];
      first [left; reflexivity | right; repeat split; reflexivity]
    | (* past the validation *)
      match goal with
      | |- (ValidationError ?x <-> _) /\ _ =>
          assert (Hnot : ~ ValidationError x)
            by (apply not_ValidationError;
                first [ left; reflexivity
                      | right; left; eexists; reflexivity
                      | right; right; left; reflexivity
                      | right; right; right; reflexivity ])
      end;
      split; [|intros V; destruct (Hnot V)];
      split; [intros V; destruct (Hnot V)|];
      intros [H | (H1 & H2 & H3)]; congruence ].
Qed.

Lemma execute_validation_witness :
  let args :=
    {| selector := "#f"; filePath := Some ""; fileUrl := None;
       base64Data := None; fileName := None; multiple := None |} in
  let out := run (browserWith []) (execute "ext" args) initial in
  run (browserWith []) (execute "ext" args) initial = (out.1, out.2)
  /\ (ValidationError out.1 <-> selector args = "" \/ sources args = 0%nat)
  /\ (ValidationError out.1 ->
      trace out.2 = trace initial /\ activeDebuggers out.2 = activeDebuggers initial).
Proof.
  intros args out. split; [reflexivity|].
  apply (execute_validation (browserWith []) "ext" args initial out.2 out.1).
  reflexivity.
Defined.

(** C2 as stated fails: a call that gives both a local path and a remote
    URL is not rejected; it uploads the local path through the debugger. *)
Lemma execute_two_sources_accepted :
  let out := run (browserWith []) (execute "ext" twoSources) initial in
  sources twoSources = 2%nat
  /\ ~ ValidationError out.1
  /\ isError out.1 = false
  /\ existsb isDebuggerCall (trace out.2) = true.
Proof.
  intros out. split; [reflexivity|]. split; [|split; reflexivity].
  apply not_ValidationError. left. reflexivity.
Qed.

(** *** Sessions *)

(** C4. After any sequence of calls of [execute] on a new tool, each
    returned before the next, the tool holds no session for any tab, and
    every call has returned a result; a single call, from any state and
    with tabs removed at any of its awaits, leaves no session that was not
    there before it; and once its try block has a tab, a call that ends in
    success or in the catch block (a rejected command, an element not
    found, an element of the wrong type) returns with no session for the
    tab. *)
Theorem sessions_balance (runtime_id : string) :
  (forall (calls : list (Browser * FileUploadToolParams)) (t : Z),
     activeDebuggers (runAll runtime_id calls initial).2 !! t = None
     /\ length (runAll runtime_id calls initial).1 = length calls)
  /\ (forall (b : Browser) (args : FileUploadToolParams) (st : State),
        noNewSession st (run b (execute runtime_id args) st).2)
  /\ (forall (b : Browser) (args : FileUploadToolParams) (st : State) (t : Z),
        settle b tabs_query = Resolved (Some t) ->
        let out := run b (execute runtime_id args) st in
        isError out.1 = false
        \/ (exists e, out.1 = createErrorResponse ("Error uploading file: " ++ e)%string) ->
        activeDebuggers out.2 !! t = None).
Proof.
  split; [|split].
  - intros calls t.
    destruct (runAll runtime_id calls initial) as [results st'] eqn:Hrun.
    destruct (runAll_noNewSession _ _ _ _ _ Hrun) as [Hnew Hlen].
    split; [apply Hnew; apply lookup_empty | exact Hlen].
  - intros b args st.
    destruct (run b (execute runtime_id args) st) as [r st'] eqn:Hrun.
    eapply execute_noNewSession. exact Hrun.
  - intros b args st t Htab out Hr. subst out.
    destruct (run b (execute runtime_id args) st) as [r st'] eqn:Hrun.
    eapply execute_releases; eassumption.
Qed.

(** On an input that is not a file input the call fails in the catch
    block, after it has detached the debugger it attached. *)
Example execute_wrong_type_releases :
  let out := run textInputBrowser (execute "ext" localUpload) initial in
  out.1 = createErrorResponse
            ("Error uploading file: Element with selector " ++ quoted "#f"
             ++ " is not a file input (type=" ++ quoted "file" ++ ")")%string
  /\ activeDebuggers out.2 = ∅
  /\ last (trace out.2) = Some (Issued (debugger_detach 7)).
Proof. repeat split. Qed.

(** C9. The listener of tab removals leaves no session for the removed
    tab, in any state of the tool, and touches no other tab; and in a run,
    whatever code is waiting for whatever call, when the tab is removed
    while the call is pending the code resumes in a state without a
    session for it. *)
Theorem onRemoved_clears_session (t : Z) :
  (forall st : State,
     activeDebuggers (onRemoved t st) !! t = None
     /\ forall t', t' <> t ->
          activeDebuggers (onRemoved t st) !! t' = activeDebuggers st !! t')
  /\ (forall (b : Browser) (R A : Type) (c : call A) (k : outcome A -> prog R)
             (st : State),
        In t (removedDuring b c) ->
        exists st1,
          run b (Await c k) st = run b (k (settle b c)) st1
          /\ trace st1 = trace st ++ Issued c :: map TabRemoved (removedDuring b c)
          /\ activeDebuggers st1 !! t = None).
Proof.
  split.
  - intros st. rewrite onRemoved_debuggers. split.
    + apply lookup_delete_eq.
    + intros t' Hne. apply lookup_delete_ne. congruence.
  - intros b R A c k st Hin.
    exists (deliver (removedDuring b c) (observe (Issued c) st)).
    split; [reflexivity|]. split.
    + rewrite deliver_trace. cbn [trace observe]. rewrite <- app_assoc. reflexivity.
    + apply deliver_removed. exact Hin.
Qed.

(** A tab closed while its files are being set: the session is gone
    when the notification is handled, and the call returns without one. *)
Example execute_tab_closed_in_flight :
  let out := run closingBrowser (execute "ext" localUpload) initial in
  In (TabRemoved 7) (trace out.2)
  /\ activeDebuggers out.2 = ∅
  /\ existsb (fun e => match e with Issued (debugger_detach _) => true | _ => false end)
       (trace out.2) = false.
Proof.
  split; [|split; reflexivity].
  vm_compute. do 9 right. left. reflexivity.
Qed.

End UploadFacts.

(** ** More on the image utilities *)

Module ImageMore.
Import ImageUtils CompressSpec CompositorSpec MoreSpec CompressFacts CompositorFacts.

(** *** getBase64Size *)

Lemma split_comma_1_header (header rest : string) :
  hasComma header = false ->
  split_comma_1 (header ++ String ","%char rest) = Some (up_to_comma rest).
Proof.
  induction header as [|c header IH]; simpl.
  - reflexivity.
  - destruct (Ascii.eqb c ","%char); simpl; [discriminate | exact IH].
Qed.

Lemma split_comma_1_none (s : string) :
  hasComma s = false -> split_comma_1 s = None.
Proof.
  induction s as [|c s IH]; cbn [hasComma split_comma_1]; [reflexivity|].
  destruct (Ascii.eqb c ","%char); cbn [orb]; [discriminate | exact IH].
Qed.

Lemma up_to_comma_all (s : string) : hasComma s = false -> up_to_comma s = s.
Proof.
  induction s as [|c s IH]; cbn [hasComma up_to_comma]; [reflexivity|].
  destruct (Ascii.eqb c ","%char); cbn [orb]; [discriminate|].
  intros H. rewrite (IH H). reflexivity.
Qed.

Lemma up_to_comma_length (s : string) :
  (String.length (up_to_comma s) <= String.length s)%nat.
Proof.
  induction s as [|c s IH]; cbn [up_to_comma String.length]; [lia|].
  destruct (Ascii.eqb c ","%char); cbn [String.length]; lia.
Qed.

Lemma split_comma_1_length (s seg : string) :
  split_comma_1 s = Some seg -> (String.length seg < String.length s)%nat.
Proof.
  induction s as [|c s IH]; cbn [split_comma_1 String.length]; [discriminate|].
  destruct (Ascii.eqb c ","%char).
  - intros [= <-]. pose proof (up_to_comma_length s). lia.
  - intros H. specialize (IH H). lia.
Qed.

Lemma length_append (s1 s2 : string) :
  String.length (s1 ++ s2)%string = (String.length s1 + String.length s2)%nat.
Proof. induction s1 as [|c s1 IH]; simpl; [reflexivity | rewrite IH; reflexivity]. Qed.

(** X1. The size of a data URL with a header without comma and a payload
    that is not empty and holds no comma is the length of the payload. *)
Theorem getBase64Size_payload (header payload : string) :
  hasComma header = false ->
  hasComma payload = false ->
  payload <> "" ->
  getBase64Size (dataUrlOf header payload) = Z.of_nat (String.length payload).
Proof.
  intros Hh Hp Hne. unfold getBase64Size, dataUrlOf.
  change ("," ++ payload)%string with (String ","%char payload).
  rewrite (split_comma_1_header _ _ Hh), (up_to_comma_all _ Hp).
  destruct payload; [congruence | reflexivity].
Qed.

Lemma getBase64Size_payload_witness :
  hasComma "data:image/jpeg;base64" = false
  /\ hasComma "/9j/4AAQSkZJRg==" = false
  /\ "/9j/4AAQSkZJRg==" <> ""
  /\ getBase64Size (dataUrlOf "data:image/jpeg;base64" "/9j/4AAQSkZJRg==")
     = Z.of_nat (String.length "/9j/4AAQSkZJRg==").
Proof.
  split; [reflexivity | split; [reflexivity | split; [discriminate|]]].
  apply (getBase64Size_payload "data:image/jpeg;base64" "/9j/4AAQSkZJRg==");
    [reflexivity | reflexivity | discriminate].
Defined.

(** X2. The measured size never exceeds the length of the text and is
    positive for every text but the empty one; a text without comma, and a
    data URL whose payload is empty, measure as their whole length. *)
Theorem getBase64Size_bounds (s : string) :
  0 <= getBase64Size s <= Z.of_nat (String.length s)
  /\ (s <> "" -> 0 < getBase64Size s)
  /\ (hasComma s = false -> getBase64Size s = Z.of_nat (String.length s))
  /\ (forall header, s = dataUrlOf header "" -> hasComma header = false ->
        getBase64Size s = Z.of_nat (String.length header) + 1).
Proof.
  unfold getBase64Size. repeat split.
  - lia.
  - destruct (split_comma_1 s) as [seg|] eqn:Hs; [|lia].
    destruct (truthy_string (Some seg)); [|lia].
    apply split_comma_1_length in Hs. lia.
  - intros Hne. destruct (split_comma_1 s) as [seg|] eqn:Hs.
    + destruct seg; cbn [truthy_string String.length]; [|lia].
      destruct s; [congruence | cbn [String.length]; lia].
    + destruct s; [congruence | cbn [String.length]; lia].
  - intros Hc. rewrite (split_comma_1_none _ Hc). reflexivity.
  - intros header -> Hh. unfold dataUrlOf.
    change ("," ++ "")%string with (String ","%char "").
    rewrite (split_comma_1_header _ _ Hh). cbn [up_to_comma truthy_string].
    rewrite length_append. cbn [String.length]. lia.
Qed.

(** *** compressImage *)





(** X4. [compressImage] encodes exactly once, and returns what that
    encode gave, when [maxSizeBytes] is absent or 0, when the first encode
    fits the budget, and when the first encode throws. *)
Theorem compressImage_single_encode (host : ImageHost) (imageDataUrl : string)
    (options : CompressOptions) :
  let first := firstAttempt options in
  let once :=
    compressImageOnce host imageDataUrl (attemptScale first) (attemptQuality first)
      (default image_jpeg (format options)) in
  truthy_Z (maxSizeBytes options) = false
  \/ (exists r, once = Resolved r
                /\ getBase64Size (dataUrl r) <= default 0 (maxSizeBytes options))
  \/ (exists e, once = Rejected e) ->
  compressImage host imageDataUrl options = Some (once, [first]).
Proof.
  intros first once H. subst first once. unfold compressImage, firstAttempt in *.
  cbn [attemptScale attemptQuality] in *.
  destruct (truthy_Z (maxSizeBytes options)) eqn:Hmax; cbn [negb]; [|reflexivity].
  destruct H as [H | [(r & Hr & Hfit) | (e & He)]]; [discriminate | |].
  - rewrite Hr. change (Z.to_nat COMPRESSION_CONFIG.MAX_ATTEMPTS) with 10%nat.
    cbn [compressLoop].
    replace (getBase64Size (dataUrl r) >? default 0 (maxSizeBytes options))
      with false by lia.
    reflexivity.
  - rewrite He. reflexivity.
Qed.

Lemma compressImage_single_encode_witness :
  let options :=
    {| scale := None; quality := None; format := None; maxSizeBytes := Some 0 |} in
  let first := firstAttempt options in
  let once :=
    compressImageOnce stubbornHost "data:image/png;base64,AAAA"
      (attemptScale first) (attemptQuality first)
      (default image_jpeg (format options)) in
  (truthy_Z (maxSizeBytes options) = false
   \/ (exists r, once = Resolved r
                 /\ getBase64Size (dataUrl r) <= default 0 (maxSizeBytes options))
   \/ (exists e, once = Rejected e))
  /\ compressImage stubbornHost "data:image/png;base64,AAAA" options
     = Some (once, [first]).
Proof.
  intros options first once.
  assert (H : truthy_Z (maxSizeBytes options) = false
              \/ (exists r, once = Resolved r
                            /\ getBase64Size (dataUrl r)
                               <= default 0 (maxSizeBytes options))
              \/ (exists e, once = Rejected e)) by (left; reflexivity).
  split; [exact H|].
  exact (compressImage_single_encode stubbornHost "data:image/png;base64,AAAA"
           options H).
Defined.

(** X5. Whatever [compressImage] resolves with carries the requested
    format as its MIME type, image/jpeg when none is requested. *)
Theorem compressImage_mimeType (host : ImageHost) (imageDataUrl : string)
    (options : CompressOptions) (r : CompressResult) (calls : list Attempt) :
  compressImage host imageDataUrl options = Some (Resolved r, calls) ->
  mimeType r = default image_jpeg (format options).
Proof.
  intros Hrun.
  destruct (compressImage_spec host imageDataUrl options)
    as (res & calls' & Hrun' & _ & Hlast & _).
  rewrite Hrun in Hrun'. injection Hrun' as <- <-.
  destruct (last calls) as [a|]; [|discriminate].
  cbn [fmap option_fmap option_map] in Hlast. injection Hlast as Hlast.
  unfold compressImageOnce in Hlast.
  destruct (createImageBitmapFromUrl host imageDataUrl); [|discriminate].
  destruct (getContext2d host); cbn [negb] in Hlast; [|discriminate].
  injection Hlast as ->. reflexivity.
Qed.

Lemma compressImage_mimeType_witness :
  let options :=
    {| scale := None; quality := None; format := Some image_webp;
       maxSizeBytes := Some 100 |} in
  let r := {| dataUrl := "data:image/webp;base64,UklGRgAA"; mimeType := image_webp |} in
  compressImage fixedHost "data:image/png;base64,AAAA" options
  = Some (Resolved r, [firstAttempt options])
  /\ mimeType r = default image_jpeg (format options).
Proof.
  intros options r. split; [reflexivity|].
  apply (compressImage_mimeType fixedHost "data:image/png;base64,AAAA" options r
           [firstAttempt options]).
  reflexivity.
Defined.

(** *** cropAndResizeImage *)

(** X6. Clamping is idempotent, the clamped rectangle is never larger
    than the requested one, and a rectangle that lies within the raster is
    left as it is. *)
Theorem clampCrop_idempotent (img : ImageBitmap) (r : CropRect.t) :
  clampedRect img (clampedRect img r) = clampedRect img r
  /\ CropRect.width (clampedRect img r) <= CropRect.width r
  /\ CropRect.height (clampedRect img r) <= CropRect.height r
  /\ (withinRaster img r -> clampedRect img r = r).
Proof.
  unfold clampedRect, withinRaster. rewrite !clampCrop_spec.
  destruct r as [x y w h].
  cbn [CropRect.x CropRect.y CropRect.width CropRect.height].
  rewrite ?clampCrop_spec.
  cbn [CropRect.x CropRect.y CropRect.width CropRect.height].
  repeat split; try lia.
  - f_equal; lia.
  - intros (Hx & Hy & Hw & Hh). f_equal; lia.
Qed.

(** *** stitchImages *)

(** X7. Stitching composes: the canvas of [parts1 ++ parts2] is the
    canvas of [parts1] with the parts of [parts2] stitched onto it, in
    order, and its console is the console of [parts1] followed by the
    errors of [parts2]; with no part at all the canvas holds the white
    fill alone. *)
Theorem stitchImages_app (host : ImageHost) (parts1 parts2 : list Part.t)
    (totalWidthPx totalHeightPx : Z) :
  (forall canvas console,
     stitchImages host parts1 totalWidthPx totalHeightPx = Resolved (canvas, console) ->
     stitchImages host (parts1 ++ parts2) totalWidthPx totalHeightPx
     = Resolved (fold_left (stitchPart host totalHeightPx) parts2 (canvas, console))
     /\ exists canvas' console',
          stitchImages host (parts1 ++ parts2) totalWidthPx totalHeightPx
          = Resolved (canvas', console')
          /\ drawn canvas'
             = drawn canvas ++ flat_map (partDraws host totalHeightPx) parts2
          /\ console' = console ++ flat_map (partErrors host) parts2)
  /\ (getContext2d host = true ->
      stitchImages host [] totalWidthPx totalHeightPx
      = Resolved
          ({| canvasWidth := totalWidthPx; canvasHeight := totalHeightPx;
              drawn := [FillRect "#FFFFFF" 0 0 totalWidthPx totalHeightPx] |},
           [])).
Proof.
  split.
  - unfold stitchImages. destruct (getContext2d host); cbn [negb]; [|discriminate].
    intros canvas console H.
    apply (f_equal (fun o => match o with
                             | Resolved x => x
                             | Rejected _ => (canvas, console)
                             end)) in H.
    cbv beta iota in H. rewrite fold_left_app, H.
    split; [reflexivity|]. rewrite stitch_fold. eexists. eexists.
    split; [reflexivity|]. split; reflexivity.
  - intros Hctx. unfold stitchImages. rewrite Hctx. reflexivity.
Qed.

(** X8. Every part leaves at most one trace, a draw or an error and
    never both: the draws after the fill and the console lines together
    are no more than the parts, and when every part decodes the console
    stays empty. *)
Theorem stitchImages_one_trace_per_part (host : ImageHost) (parts : list Part.t)
    (totalWidthPx totalHeightPx : Z) (canvas : OffscreenCanvas Z)
    (console : list string) :
  stitchImages host parts totalWidthPx totalHeightPx = Resolved (canvas, console) ->
  (length (drawn canvas) + length console <= 1 + length parts)%nat
  /\ (1 <= length (drawn canvas))%nat
  /\ ((forall part, In part parts ->
         exists img, createImageBitmapFromUrl host (Part.dataUrl part) = Resolved img) ->
      console = []).
Proof.
  unfold stitchImages. destruct (getContext2d host); cbn [negb]; [|discriminate].
  rewrite stitch_fold. intros [= <- <-]. cbn [drawn draw app length].
  assert (Hone : forall part,
             (length (partDraws host totalHeightPx part)
              + length (partErrors host part) <= 1)%nat).
  { intros part. unfold partDraws, partErrors.
    destruct (createImageBitmapFromUrl host (Part.dataUrl part)) as [img|e];
      [|cbn [length]; lia].
    destruct (clippedHeight totalHeightPx img (Part.y part) <=? 0); cbn [length]; lia. }
  split; [|split; [lia|]].
  - induction parts as [|part parts IH]; cbn [flat_map length]; [lia|].
    rewrite !length_app. specialize (Hone part). lia.
  - intros Hall. induction parts as [|part parts IH]; [reflexivity|].
    cbn [flat_map]. rewrite IH by (intros p Hp; apply Hall; right; exact Hp).
    unfold partErrors. destruct (Hall part (or_introl eq_refl)) as [img ->].
    reflexivity.
Qed.

Lemma stitchImages_one_trace_per_part_witness :
  let parts :=
    [ {| Part.dataUrl := "data:image/png;base64,AAAA"; Part.y := 0 |};
      {| Part.dataUrl := ""; Part.y := 100 |};
      {| Part.dataUrl := "data:image/png;base64,CCCC"; Part.y := 150 |} ] in
  let out :=
    match stitchImages squareHost parts 100 150 with
    | Resolved out => out
    | Rejected _ =>
        ({| canvasWidth := 0; canvasHeight := 0; drawn := [] |}, [])
    end in
  stitchImages squareHost parts 100 150 = Resolved (out.1, out.2)
  /\ (length (drawn out.1) + length out.2 <= 1 + length parts)%nat
  /\ (1 <= length (drawn out.1))%nat
  /\ ((forall part, In part parts ->
         exists img,
           createImageBitmapFromUrl squareHost (Part.dataUrl part) = Resolved img) ->
      out.2 = []).
Proof.
  intros parts out. split; [reflexivity|].
  apply (stitchImages_one_trace_per_part squareHost parts 100 150 out.1 out.2).
  reflexivity.
Defined.

(** *** canvasToDataURL *)

(** X9. [canvasToDataURL] hands the quality to the encoder for
    image/jpeg only: with any other format, image/webp included, and with
    no format (image/png), the result does not depend on the quality. *)
Theorem canvasToDataURL_quality_jpeg_only {Canvas Blob : Type}
    (host : CanvasExport.ExportHost Canvas Blob) (canvas : Canvas)
    (format : option string) (q1 q2 : option float) :
  format <> Some "image/jpeg" ->
  CanvasExport.canvasToDataURL host canvas format q1
  = CanvasExport.canvasToDataURL host canvas format q2.
Proof.
  intros Hne. unfold CanvasExport.canvasToDataURL.
  destruct (String.eqb (default "image/png" format) "image/jpeg") eqn:Heq;
    [|reflexivity].
  apply String.eqb_eq in Heq. destruct format as [f|]; cbn [default from_option id] in Heq.
  - congruence.
  - discriminate Heq.
Qed.

Lemma canvasToDataURL_quality_jpeg_only_witness :
  let host : CanvasExport.ExportHost Z string :=
    {| CanvasExport.convertToBlob := fun canvas type quality =>
         match quality with
         | Some _ => Resolved (type ++ ";lossy")%string
         | None => Resolved type
         end;
       CanvasExport.readAsDataURL := fun blob =>
         Resolved ("data:" ++ blob ++ ";base64,AAAA")%string |} in
  Some "image/webp" <> Some "image/jpeg"
  /\ CanvasExport.canvasToDataURL host 1 (Some "image/webp") (Some 0.5%float)
     = CanvasExport.canvasToDataURL host 1 (Some "image/webp") None.
Proof.
  intros host. split; [discriminate|].
  apply (canvasToDataURL_quality_jpeg_only host 1 (Some "image/webp")
           (Some 0.5%float) None).
  discriminate.
Defined.

End ImageMore.

(** ** More on the side-channel stager *)

Module StagerMore.
Import Stager MoreSpec.

Lemma resolve_settled (v : option string) (p : Pending) (w : option string) :
  resolved p = Some w -> resolved (resolve v p) = Some w.
Proof. intros H. cbn [resolve resolved]. rewrite H. reflexivity. Qed.

Lemma step_settled (p : Pending) (e : Event) (w : option string) :
  resolved p = Some w -> resolved (step p e) = Some w.
Proof.
  intros H. destruct e as [m| |reason|]; cbn [step].
  - destruct (listening p); [|exact H]. unfold handleMessage.
    destruct (_ && _); [|exact H].
    destruct (_ && _); apply resolve_settled; exact H.
  - destruct (timeout p); [|exact H]. apply resolve_settled. exact H.
  - destruct (sending p); [|exact H]. apply resolve_settled. exact H.
  - exact H.
Qed.

(** X10. The promise settles at most once: whatever happens after it has
    resolved, a late response, the timer, a rejected send, its value
    stays. *)
Theorem resolved_once (events : list Event) :
  forall (p : Pending) (w : option string),
    resolved p = Some w -> resolved (steps p events) = Some w.
Proof.
  unfold steps. induction events as [|e events IH]; intros p w H; cbn [fold_left].
  - exact H.
  - apply IH. apply step_settled. exact H.
Qed.

Lemma resolved_once_witness :
  let p := steps (prepareFileFromRemote "file-upload-1-abc" None (Some "QUJD") "a.txt")
             [SendRejects "no receiver"] in
  let late :=
    {| type := "file_operation_response";
       responseToRequestId := Some "file-upload-1-abc";
       payload := Some {| success := true; filePath := Some "/tmp/a.txt";
                          payloadError := None |};
       error := None |} in
  resolved p = Some None
  /\ resolved (steps p [MessageArrives late; TimerFires]) = Some None.
Proof.
  intros p late. split; [reflexivity|].
  apply (resolved_once [MessageArrives late; TimerFires] p None). reflexivity.
Defined.

Lemma invariant_step (requestId : string) (p : Pending) (e : Event) :
  invariant requestId p -> invariant requestId (step p e).
Proof.
  unfold invariant. destruct p as [id res tmo lis snd adds rems snt con].
  destruct e as [m| |reason|]; cbn [step listening timeout sending].
  - destruct lis; [|tauto].
    unfold handleMessage. destruct (_ && _); [|tauto].
    destruct (_ && _); destruct res; simpl;
      intuition (try discriminate; try congruence).
  - destruct tmo; [|tauto].
    destruct res; simpl; intuition (try discriminate; try congruence).
  - destruct snd; [|tauto].
    destruct res; simpl; intuition (try discriminate; try congruence).
  - simpl. tauto.
Qed.

Lemma invariant_steps (requestId : string) (events : list Event) :
  forall p : Pending, invariant requestId p -> invariant requestId (steps p events).
Proof.
  unfold steps. induction events as [|e events IH]; intros p H; cbn [fold_left].
  - exact H.
  - apply IH. apply invariant_step. exact H.
Qed.

Lemma invariant_start (requestId : string) (fileUrl base64Data : option string)
    (fileName : string) :
  invariant requestId (prepareFileFromRemote requestId fileUrl base64Data fileName).
Proof. repeat split; discriminate. Qed.

(** X11. Whatever happens to a call, it has sent one request and added
    one listener, no retry; while its promise is pending the listener is
    registered and the 30000 ms timer is scheduled; and once the listener
    is removed the timer is cleared and the promise is settled. *)
Theorem prepareFileFromRemote_invariant (requestId : string)
    (fileUrl base64Data : option string) (fileName : string)
    (events : list Event) :
  let p := steps (prepareFileFromRemote requestId fileUrl base64Data fileName) events in
  length (sent p) = 1%nat
  /\ addListenerCalls p = 1%nat
  /\ (resolved p = None -> listening p = true /\ timeout p = Some 30000)
  /\ (listening p = false -> timeout p = None /\ resolved p <> None).
Proof.
  intros p.
  destruct (invariant_steps requestId events _
              (invariant_start requestId fileUrl base64Data fileName))
    as (_ & H). exact H.
Qed.

(** X12. A call does not stay pending: once the timer has fired, or a
    response to the request has arrived, the promise is settled, whatever
    else happened before or after. *)
Theorem prepareFileFromRemote_settles (requestId : string)
    (fileUrl base64Data : option string) (fileName : string)
    (events : list Event) :
  In TimerFires events \/ existsb (isAnswer requestId) events = true ->
  resolved (steps (prepareFileFromRemote requestId fileUrl base64Data fileName) events)
  <> None.
Proof.
  intros Hev.
  assert (Hsplit : exists before e after,
             events = before ++ e :: after
             /\ (e = TimerFires \/ isAnswer requestId e = true)).
  { destruct Hev as [Hin | Hex].
    - apply in_split in Hin. destruct Hin as (l1 & l2 & ->). eauto 6.
    - apply existsb_exists in Hex. destruct Hex as (e & Hin & He).
      apply in_split in Hin. destruct Hin as (l1 & l2 & ->). eauto 6. }
  destruct Hsplit as (before & e & after & -> & He).
  unfold steps. rewrite fold_left_app. cbn [fold_left].
  set (p := fold_left step before _).
  assert (Hinv : invariant requestId p).
  { apply (invariant_steps requestId before), invariant_start. }
  assert (Hnow : resolved (step p e) <> None).
  { destruct Hinv as (Hid & _ & _ & Hpending & _). clearbody p.
    destruct p as [id res tmo lis snd adds rems snt con].
    cbn [pendingRequestId resolved listening timeout] in Hid, Hpending.
    destruct res as [w|].
    - erewrite step_settled by reflexivity. discriminate.
    - destruct (Hpending eq_refl) as [-> ->].
      destruct He as [-> | He]; [simpl; intros H; discriminate H|].
      destruct e as [m| | |]; try discriminate He.
      cbn [isAnswer] in He. unfold answers in He.
      cbn [step listening]. unfold handleMessage. cbn [pendingRequestId].
      rewrite Hid, He. cbn [payload].
      match goal with |- context [if ?c then _ else _] => destruct c end;
        simpl; intros H; discriminate H. }
  destruct (resolved (step p e)) as [w|] eqn:Hw; [|congruence].
  fold (steps (step p e) after). rewrite (resolved_once after _ w Hw). discriminate.
Qed.

Lemma prepareFileFromRemote_settles_witness :
  let events := [SendResolves; TimerFires] in
  (In TimerFires events \/ existsb (isAnswer "file-upload-1-abc") events = true)
  /\ resolved (steps (prepareFileFromRemote "file-upload-1-abc"
                       (Some "http://x/y.bin") None "y.bin") events)
     <> None.
Proof.
  intros events.
  assert (H : In TimerFires events
              \/ existsb (isAnswer "file-upload-1-abc") events = true)
    by (left; right; left; reflexivity).
  split; [exact H|].
  exact (prepareFileFromRemote_settles "file-upload-1-abc" (Some "http://x/y.bin")
           None "y.bin" events H).
Defined.

(** X13. Messages that are not the response to the request, of another
    type or for another request id, change nothing however many arrive:
    the call stays as it started. *)
Theorem unrelated_messages_ignored (requestId : string)
    (fileUrl base64Data : option string) (fileName : string)
    (events : list Event) :
  forallb isMessage events = true ->
  existsb (isAnswer requestId) events = false ->
  steps (prepareFileFromRemote requestId fileUrl base64Data fileName) events
  = prepareFileFromRemote requestId fileUrl base64Data fileName.
Proof.
  unfold steps. induction events as [|e events IH]; cbn [fold_left forallb existsb];
    [reflexivity|].
  intros Hall Hnone. apply andb_true_iff in Hall as [He Hall].
  apply orb_false_iff in Hnone as [Hne Hnone].
  destruct e as [m| | |]; try discriminate He.
  cbn [isAnswer] in Hne. unfold answers in Hne.
  assert (Hsame : step (prepareFileFromRemote requestId fileUrl base64Data fileName)
                    (MessageArrives m)
                  = prepareFileFromRemote requestId fileUrl base64Data fileName).
  { unfold step, handleMessage.
    cbn [listening pendingRequestId prepareFileFromRemote]. rewrite Hne. reflexivity. }
  rewrite Hsame. exact (IH Hall Hnone).
Qed.

Lemma unrelated_messages_ignored_witness :
  let other :=
    {| type := "file_operation_response";
       responseToRequestId := Some "file-upload-2-xyz";
       payload := Some {| success := true; filePath := Some "/tmp/other";
                          payloadError := None |};
       error := None |} in
  let noise :=
    {| type := "tab_updated"; responseToRequestId := None; payload := None;
       error := None |} in
  let events := [MessageArrives other; MessageArrives noise] in
  forallb isMessage events = true
  /\ existsb (isAnswer "file-upload-1-abc") events = false
  /\ steps (prepareFileFromRemote "file-upload-1-abc" None (Some "QUJD") "a.txt") events
     = prepareFileFromRemote "file-upload-1-abc" None (Some "QUJD") "a.txt".
Proof.
  intros other noise events. split; [reflexivity | split; [reflexivity|]].
  apply (unrelated_messages_ignored "file-upload-1-abc" None (Some "QUJD") "a.txt"
           events); reflexivity.
Defined.

(** X14. The first response to the request that reaches a pending call
    settles it: with the reported path when the payload reports success
    and a path, with null otherwise (no payload, no success, no path or an
    empty one); the listener is removed with one call and the timer is
    cleared. *)
Theorem first_answer_settles (requestId : string)
    (fileUrl base64Data : option string) (fileName : string)
    (noise : list Event) (message : Message) :
  forallb isMessage noise = true ->
  existsb (isAnswer requestId) noise = false ->
  answers requestId message = true ->
  let p :=
    steps (prepareFileFromRemote requestId fileUrl base64Data fileName)
      (noise ++ [MessageArrives message]) in
  resolved p = Some (reported message)
  /\ listening p = false
  /\ removeListenerCalls p = 1%nat
  /\ timeout p = None.
Proof.
  intros Hall Hnone Hans p. subst p. unfold steps. rewrite fold_left_app.
  fold (steps (prepareFileFromRemote requestId fileUrl base64Data fileName) noise).
  rewrite (unrelated_messages_ignored _ _ _ _ noise Hall Hnone).
  cbn [fold_left]. unfold step, handleMessage. unfold answers in Hans.
  cbn [listening pendingRequestId prepareFileFromRemote]. rewrite Hans.
  unfold reported. destruct (payload message) as [r|]; [|repeat split].
  destruct (success r && truthy_string (filePath r)); repeat split.
Qed.

Lemma first_answer_settles_witness :
  let failed :=
    {| type := "file_operation_response";
       responseToRequestId := Some "file-upload-1-abc";
       payload := Some {| success := false; filePath := None;
                          payloadError := Some "ENOENT" |};
       error := None |} in
  let p :=
    steps (prepareFileFromRemote "file-upload-1-abc" (Some "http://x/y.bin") None "y.bin")
      ([] ++ [MessageArrives failed]) in
  forallb isMessage [] = true
  /\ existsb (isAnswer "file-upload-1-abc") [] = false
  /\ answers "file-upload-1-abc" failed = true
  /\ resolved p = Some (reported failed)
  /\ listening p = false
  /\ removeListenerCalls p = 1%nat
  /\ timeout p = None.
Proof.
  intros failed p. do 3 (split; [reflexivity|]).
  apply (first_answer_settles "file-upload-1-abc" (Some "http://x/y.bin") None "y.bin"
           [] failed); reflexivity.
Defined.

End StagerMore.

(** ** More on the file upload tool *)

Module UploadMore.
Import FileUpload UploadSpec MoreSpec UploadFacts.

(** *** The checks on the values *)

(** X15. The attributes are read as name/value pairs: the check finds a
    file input exactly when the pair type=file is among them, at an even
    position; a trailing name without value is ignored. *)
Theorem isFileInput_pairs (pairs : list (string * string)) (tail : list string) :
  (length tail <= 1)%nat ->
  isFileInput (flatAttributes pairs ++ tail) = true <-> In ("type", "file") pairs.
Proof.
  intros Htail. induction pairs as [|[name value] pairs IH].
  - cbn [flatAttributes flat_map app In].
    destruct tail as [|x [|y tail]]; cbn [isFileInput length] in *;
      [split; [discriminate | tauto] | split; [discriminate | tauto] | lia].
  - change (flatAttributes ((name, value) :: pairs) ++ tail)
      with (name :: value :: (flatAttributes pairs ++ tail)).
    cbn [isFileInput In]. rewrite orb_true_iff, andb_true_iff, IH, !String.eqb_eq.
    split.
    + intros [[-> ->] | H]; [left; reflexivity | right; exact H].
    + intros [[= -> ->] | H]; [left; split; reflexivity | right; exact H].
Qed.

Lemma isFileInput_pairs_witness :
  (length ["disabled"] <= 1)%nat
  /\ (isFileInput (flatAttributes [("id", "f"); ("type", "file")] ++ ["disabled"]) = true
      <-> In ("type", "file") [("id", "f"); ("type", "file")]).
Proof.
  split; [simpl; lia|].
  apply (isFileInput_pairs [("id", "f"); ("type", "file")] ["disabled"]). simpl. lia.
Defined.

(** X16. Escaping the selector for the change-event script touches the
    single quotes only: it distributes over concatenation, it leaves a
    selector without quote as it is, backslashes included, and it
    lengthens the selector by one character per quote. *)
Theorem escapeQuotes_quotes_only (s1 s2 : string) :
  escapeQuotes (s1 ++ s2) = (escapeQuotes s1 ++ escapeQuotes s2)%string
  /\ (quotes s1 = 0%nat -> escapeQuotes s1 = s1)
  /\ String.length (escapeQuotes s1) = (String.length s1 + quotes s1)%nat.
Proof.
  repeat split.
  - induction s1 as [|c s1 IH]; simpl; [reflexivity|].
    rewrite IH. destruct (Ascii.eqb c "'"%char); reflexivity.
  - induction s1 as [|c s1 IH]; simpl; [reflexivity|].
    destruct (Ascii.eqb c "'"%char); [discriminate|].
    intros H. rewrite (IH H). reflexivity.
  - induction s1 as [|c s1 IH]; simpl; [reflexivity|].
    destruct (Ascii.eqb c "'"%char); simpl; rewrite IH; lia.
Qed.

(** *** Traces of a call *)

Ltac all_events_with :=
  repeat match goal with
    | H : Forall ?P ?l |- Forall ?P ?l => exact H
    | |- Forall _ [] => apply Forall_nil_2
    | |- Forall _ (_ ++ _) => apply Forall_app; split
    | |- Forall _ (map TabRemoved _) => apply Forall_TabRemoved; solve [auto]
    | |- Forall _ (_ :: _) => apply Forall_cons; split; [solve [auto]|]
    end.

(** What holds of every event of the catch block holds of its trace. *)
Lemma caught_trace_gen (P : event -> Prop) (b : Browser) (tabId : option Z)
    (e : string) (st0 st st' : State) (ev0 : list event) (r : ToolResult) :
  (forall t, P (TabRemoved t)) ->
  (forall t, P (Issued (debugger_detach t))) ->
  grewBy st0 st ev0 ->
  Forall P ev0 ->
  run b (caught tabId e) st = (r, st') ->
  exists events, grewBy st0 st' events /\ Forall P events.
Proof.
  intros Hrem Hdetach Hgrew Hev0. unfold caught, detachDebugger.
  exec; intros [= <- <-]; eexists; (split; [grew | all_events_with]).
Qed.

(** What holds of every event outside the try block, and of the traces
    of the try block, holds of the trace of a call. *)
Lemma execute_trace_lift (P : event -> Prop) (b : Browser) (runtime_id : string)
    (args : FileUploadToolParams) (st st' : State) (r : ToolResult) :
  (forall t, P (TabRemoved t)) ->
  P (Issued tabs_query) ->
  (forall u d n, P (Issued (prepareFileFromRemote u d n))) ->
  (forall t, P (Issued (debugger_detach t))) ->
  (forall tabId fs st1 st2 ev0 o,
     grewBy st st1 ev0 -> Forall P ev0 ->
     run b (upload runtime_id (selector args) tabId fs) st1 = (o, st2) ->
     exists events, grewBy st st2 events /\ Forall P events) ->
  run b (execute runtime_id args) st = (r, st') ->
  exists events, grewBy st st' events /\ Forall P events.
Proof.
  intros Hrem Htabs Hstage Hdetach Hupload. exec_outer.
  all: try (intros [= <- <-]; eexists; split; [solve [grew] | all_events_with]; fail).
  all: try (intros Hc; eapply (caught_trace_gen P); [ | | | | exact Hc];
            [auto | auto | grew | all_events_with]; fail).
  all: match goal with
       | H : run _ (upload _ _ _ _) _ = _ |- _ =>
           eapply Hupload in H; [ | grew | all_events_with ];
           destruct H as (ev & Hgrew & Hall)
       end.
  all: try (intros [= <- <-]; eexists; split; eassumption).
  all: intros Hc; eapply (caught_trace_gen P); [ | | | | exact Hc]; eauto.
Qed.

(** X17. The files are set only on a node that DOM.describeNode has
    answered to be an INPUT with the pair type=file: every
    DOM.setFileInputFiles command of a call names such a node. *)
Theorem setFileInputFiles_only_on_file_input (b : Browser) (runtime_id : string)
    (args : FileUploadToolParams) (st st' : State) (r : ToolResult) :
  run b (execute runtime_id args) st = (r, st') ->
  exists events,
    grewBy st st' events
    /\ Forall (fun e => forall t nodeId fs,
                 setFilesOf e = Some (t, nodeId, fs) -> describedFileInput b t nodeId)
         events.
Proof.
  apply execute_trace_lift; try (intros; discriminate).
  intros tabId fs st1 st2 ev0 o Hgrew Hev0.
  unfold upload, attachDebugger, detachDebugger.
  exec; intros [= <- <-]; eexists; (split; [grew|]).
  all: repeat match goal with
    | H : Forall ?P ?l |- Forall ?P ?l => exact H
    | |- Forall _ [] => apply Forall_nil_2
    | |- Forall _ (_ ++ _) => apply Forall_app; split
    | |- Forall _ (map TabRemoved _) =>
        apply Forall_TabRemoved; intros; discriminate
    | |- Forall _ (_ :: _) =>
        apply Forall_cons; split;
        [ let H := fresh in
          intros ? ? ? H; simpl in H;
          first [ discriminate H
                | injection H as <- <- <-; eexists; eexists;
                  split; [eassumption|]; split; [eassumption|];
                  split; [apply String.eqb_eq; assumption | assumption] ]
        |]
    end.
Qed.

Lemma setFileInputFiles_only_on_file_input_witness :
  let out := run (browserWith []) (execute "ext" localUpload) initial in
  run (browserWith []) (execute "ext" localUpload) initial = (out.1, out.2)
  /\ exists events,
       grewBy initial out.2 events
       /\ Forall (fun e => forall t nodeId fs,
                    setFilesOf e = Some (t, nodeId, fs) ->
                    describedFileInput (browserWith []) t nodeId)
            events.
Proof.
  intros out. split; [reflexivity|].
  apply (setFileInputFiles_only_on_file_input (browserWith []) "ext" localUpload
           initial out.2 out.1).
  reflexivity.
Defined.

Lemma methodsOf_app (l1 l2 : list event) :
  methodsOf (l1 ++ l2) = methodsOf l1 ++ methodsOf l2.
Proof. apply flat_map_app. Qed.

Lemma methodsOf_TabRemoved (removed : list Z) : methodsOf (map TabRemoved removed) = [].
Proof. induction removed as [|t removed IH]; [reflexivity | exact IH]. Qed.

(** The methods of a trace that was read off a state. *)
Ltac methods :=
  rewrite ?methodsOf_app, ?methodsOf_TabRemoved;
  cbn [methodsOf flat_map app]; rewrite ?app_nil_r, <- ?app_assoc;
  cbn [app].

(** The try block, when it returns normally, has issued the seven
    commands in order. *)
Lemma upload_methods (b : Browser) (runtime_id selector : string) (t : Z)
    (fs : list string) (st0 st st' : State) (ev0 : list event) (res : ToolResult) :
  grewBy st0 st ev0 ->
  run b (upload runtime_id selector t fs) st = (Resolved res, st') ->
  exists events,
    grewBy st0 st' events
    /\ methodsOf events
       = methodsOf ev0
         ++ ["DOM.enable"; "Runtime.enable"; "DOM.getDocument"; "DOM.querySelector";
             "DOM.describeNode"; "DOM.setFileInputFiles"; "Runtime.evaluate"].
Proof.
  intros Hgrew. unfold upload, attachDebugger, detachDebugger.
  exec; intros [= <- <-]; eexists; (split; [grew|]); methods; reflexivity.
Qed.

(** X18. A call that succeeds has issued the seven protocol commands, each
    once and in this order, and no other: DOM.enable, Runtime.enable,
    DOM.getDocument, DOM.querySelector, DOM.describeNode,
    DOM.setFileInputFiles, Runtime.evaluate. *)
Theorem execute_success_commands (b : Browser) (runtime_id : string)
    (args : FileUploadToolParams) (st st' : State) (r : ToolResult) :
  run b (execute runtime_id args) st = (r, st') ->
  isError r = false ->
  exists events,
    grewBy st st' events
    /\ methodsOf events
       = ["DOM.enable"; "Runtime.enable"; "DOM.getDocument"; "DOM.querySelector";
          "DOM.describeNode"; "DOM.setFileInputFiles"; "Runtime.evaluate"].
Proof.
  intros Hrun Hok. revert Hrun. exec_outer.
  all: try (intros [= <- <-]; discriminate Hok).
  all: try match goal with
       | |- run _ (caught _ _) _ = _ -> _ =>
           let H := fresh in intros H; apply caught_spec in H;
           destruct H as (-> & _ & _); discriminate Hok
       end.
  all: intros [= <- <-].
  all: match goal with
       | H : run _ (upload _ _ _ _) _ = _ |- _ =>
           eapply (upload_methods _ _ _ _ _ st) in H; [ | grew ];
           destruct H as (ev & Hgrew & Hm)
       end.
  all: exists ev; split; [exact Hgrew|]; rewrite Hm; methods; reflexivity.
Qed.

Lemma execute_success_commands_witness :
  let out := run (browserWith (ownedBy "ext")) (execute "ext" remoteUpload) initial in
  run (browserWith (ownedBy "ext")) (execute "ext" remoteUpload) initial = (out.1, out.2)
  /\ isError out.1 = false
  /\ exists events,
       grewBy initial out.2 events
       /\ methodsOf events
          = ["DOM.enable"; "Runtime.enable"; "DOM.getDocument"; "DOM.querySelector";
             "DOM.describeNode"; "DOM.setFileInputFiles"; "Runtime.evaluate"].
Proof.
  intros out. split; [reflexivity | split; [reflexivity|]].
  apply (execute_success_commands (browserWith (ownedBy "ext")) "ext" remoteUpload
           initial out.2 out.1); reflexivity.
Defined.

(** The try block stages nothing. *)
Lemma upload_no_staging (b : Browser) (runtime_id selector : string) (t : Z)
    (fs : list string) (st0 st st' : State) (ev0 : list event)
    (o : outcome ToolResult) :
  grewBy st0 st ev0 ->
  Forall (fun e => isStaging e = false) ev0 ->
  run b (upload runtime_id selector t fs) st = (o, st') ->
  exists events,
    grewBy st0 st' events /\ Forall (fun e => isStaging e = false) events.
Proof.
  intros Hgrew Hev0. unfold upload, attachDebugger, detachDebugger.
  exec; intros [= <- <-]; eexists; (split; [grew | all_events]).
Qed.

(** X19. A local path takes precedence: when filePath is present the
    native host is never asked to stage a file, whatever fileUrl and
    base64Data hold, and a success reports the local path as its one
    file. *)
Theorem execute_filePath_first (b : Browser) (runtime_id : string)
    (args : FileUploadToolParams) (st st' : State) (r : ToolResult) (path : string) :
  filePath args = Some path ->
  path <> "" ->
  run b (execute runtime_id args) st = (r, st') ->
  (exists events,
     grewBy st st' events /\ Forall (fun e => isStaging e = false) events)
  /\ (isError r = false ->
      r = createSuccessResponse
            {| success := true;
               message := "File(s) uploaded successfully";
               files := [path];
               dataSelector := selector args;
               fileCount := 1 |}).
Proof.
  intros Hpath Hne.
  assert (Hfp : truthy_string (filePath args) = true).
  { rewrite Hpath. destruct path; [congruence | reflexivity]. }
  unfold execute, prepareFiles. rewrite Hfp, Hpath. cbn [default from_option id].
  exec_outer.
  all: try (intros [= <- <-]; split;
            [eexists; split; [solve [grew] | all_events] | intros H; discriminate H];
            fail).
  all: try (intros Hc; split;
            [ eapply caught_trace_gen; [ | | | | exact Hc];
              [intros; reflexivity | intros; reflexivity | grew | all_events]
            | apply caught_spec in Hc; destruct Hc as (-> & _ & _);
              intros H; discriminate H ]; fail).
  all: match goal with
       | H : run _ (upload _ _ _ _) _ = _ |- _ =>
           pose proof (upload_spec _ _ _ _ _ _ _ _ H) as [_ Hdone];
           eapply (upload_no_staging _ _ _ _ _ st) in H; [ | grew | all_events ];
           destruct H as (ev & Hgrew & Hall)
       end.
  all: try (intros [= <- <-]; split; [eauto|]; intros _;
            destruct (Hdone _ eq_refl) as [_ ->]; reflexivity).
  all: intros Hc; split;
       [ eapply caught_trace_gen; [ | | | | exact Hc];
         [intros; reflexivity | intros; reflexivity | eassumption | eassumption]
       | apply caught_spec in Hc; destruct Hc as (-> & _ & _);
         intros H; discriminate H ].
Qed.

Lemma execute_filePath_first_witness :
  let out := run (browserWith []) (execute "ext" twoSources) initial in
  filePath twoSources = Some "/tmp/a.png"
  /\ "/tmp/a.png" <> ""
  /\ run (browserWith []) (execute "ext" twoSources) initial = (out.1, out.2)
  /\ (exists events,
        grewBy initial out.2 events /\ Forall (fun e => isStaging e = false) events)
  /\ (isError out.1 = false ->
      out.1 = createSuccessResponse
                {| success := true;
                   message := "File(s) uploaded successfully";
                   files := ["/tmp/a.png"];
                   dataSelector := selector twoSources;
                   fileCount := 1 |}).
Proof.
  intros out. split; [reflexivity | split; [discriminate | split; [reflexivity|]]].
  apply (execute_filePath_first (browserWith []) "ext" twoSources initial out.2 out.1
           "/tmp/a.png"); [reflexivity | discriminate | reflexivity].
Defined.

(** No request for the targets in a trace read off a state. *)
Ltac no_targets :=
  rewrite ?existsb_app; cbn [existsb isGetTargets orb];
  rewrite ?existsb_TabRemoved by reflexivity; reflexivity.

(** The result is none of the answers given before the acquisition. *)
Ltac not_early H :=
  unfold ValidationError, createErrorResponse in H; simpl in H;
  destruct H as [H | [H | [H | H]]]; discriminate H.

(** X20. The failures before the session acquisition, a validation error,
    no active tab, no staged file, leave the debugger alone: a call that
    answers with one of them has issued no attach, no protocol command and
    no detach, and has not asked for the targets. *)
Theorem execute_early_failures_quiet (b : Browser) (runtime_id : string)
    (args : FileUploadToolParams) (st st' : State) (r : ToolResult) :
  run b (execute runtime_id args) st = (r, st') ->
  r = createErrorResponse "Selector is required for file upload"
  \/ r = createErrorResponse "One of filePath, fileUrl, or base64Data must be provided"
  \/ r = createErrorResponse "No active tab found"
  \/ r = createErrorResponse "Failed to prepare file for upload" ->
  exists events,
    grewBy st st' events
    /\ Forall (fun e => isDebuggerCall e = false) events
    /\ existsb isGetTargets events = false.
Proof.
  intros Hrun Hr. revert Hrun. exec_outer.
  all: try (intros [= <- <-]; eexists;
            split; [solve [grew] | split; [all_events | no_targets]]; fail).
  all: try match goal with
       | |- run _ (caught _ _) _ = _ -> _ =>
           let H := fresh in intros H; apply caught_spec in H;
           destruct H as (-> & _ & _); not_early Hr
       end.
  all: intros [= <- <-].
  all: match goal with
       | H : run _ (upload _ _ _ _) _ = _ |- _ =>
           apply upload_spec in H; destruct H as [_ Hdone];
           destruct (Hdone _ eq_refl) as [_ ->]; not_early Hr
       end.
Qed.

Lemma execute_early_failures_quiet_witness :
  let out := run unstagedBrowser (execute "ext" remoteUpload) initial in
  run unstagedBrowser (execute "ext" remoteUpload) initial = (out.1, out.2)
  /\ (out.1 = createErrorResponse "Selector is required for file upload"
      \/ out.1 = createErrorResponse
                   "One of filePath, fileUrl, or base64Data must be provided"
      \/ out.1 = createErrorResponse "No active tab found"
      \/ out.1 = createErrorResponse "Failed to prepare file for upload")
  /\ exists events,
       grewBy initial out.2 events
       /\ Forall (fun e => isDebuggerCall e = false) events
       /\ existsb isGetTargets events = false.
Proof.
  intros out.
  assert (Hr : out.1 = createErrorResponse "Selector is required for file upload"
               \/ out.1 = createErrorResponse
                            "One of filePath, fileUrl, or base64Data must be provided"
               \/ out.1 = createErrorResponse "No active tab found"
               \/ out.1 = createErrorResponse "Failed to prepare file for upload")
    by (right; right; right; reflexivity).
  split; [reflexivity | split; [exact Hr|]].
  exact (execute_early_failures_quiet unstagedBrowser "ext" remoteUpload initial
           out.2 out.1 eq_refl Hr).
Defined.

(** *** The session acquisition *)

(** X21. [attachDebugger] records a session only behind a resolved
    attach: it never records one for another tab, a call that throws
    records none, and when the tab has a session afterwards that it had
    not before, the targets were read without an attached target for the
    tab, chrome.debugger.attach resolved, and the call returned. *)
Theorem attachDebugger_records_after_attach (b : Browser) (runtime_id : string)
    (t : Z) (st st' : State) (r : outcome unit) :
  run b (attachDebugger runtime_id t) st = (r, st') ->
  (forall t', t' <> t ->
     activeDebuggers st !! t' = None -> activeDebuggers st' !! t' = None)
  /\ (forall e, r = Rejected e -> noNewSession st st')
  /\ (activeDebuggers st !! t = None -> activeDebuggers st' !! t <> None ->
      r = Resolved tt
      /\ settle b (debugger_attach t "1.3") = Resolved tt
      /\ activeDebuggers st' !! t = Some true
      /\ exists targets,
           settle b debugger_getTargets = Resolved targets
           /\ existingTarget targets t = None).
Proof.
  unfold attachDebugger, existingTarget. exec; intros [= <- <-].
  all: split; [intros t' Hne Ht'; no_session|].
  all: split; [intros e He; first [discriminate He | intros t' Ht'; no_session]|].
  all: intros Hnone Hsome.
  all: try (exfalso; apply Hsome; no_session; fail).
  match goal with a0 : unit |- _ => destruct a0 end.
  refine (conj eq_refl (conj eq_refl (conj _ _))).
  - cbn [activeDebuggers writeConsole setDebuggers]. apply lookup_insert_eq.
  - eexists. split; [reflexivity | assumption].
Qed.

Lemma attachDebugger_records_after_attach_witness :
  let out := run (browserWith []) (attachDebugger "ext" 7) initial in
  run (browserWith []) (attachDebugger "ext" 7) initial = (out.1, out.2)
  /\ activeDebuggers out.2 !! 7 = Some true
  /\ out.1 = Resolved tt.
Proof.
  intros out. split; [reflexivity | split; [reflexivity|]].
  apply (attachDebugger_records_after_attach (browserWith []) "ext" 7 initial out.2
           out.1 eq_refl); [reflexivity | discriminate].
Defined.

(** The trace holds no attach. *)
Ltac no_attach H :=
  rewrite ?existsb_app in H; cbn [existsb isAttach orb] in H;
  rewrite ?existsb_TabRemoved in H by reflexivity;
  cbn [orb] in H; discriminate H.

(** The try block when the attach is rejected: it throws the rejection
    after the two calls of the acquisition. *)
Lemma upload_attach_rejected (b : Browser) (runtime_id selector : string) (t : Z)
    (fs : list string) (targets : list TargetInfo) (e : string) (st : State) :
  settle b debugger_getTargets = Resolved targets ->
  existingTarget targets t = None ->
  settle b (debugger_attach t "1.3") = Rejected e ->
  run b (upload runtime_id selector t fs) st
  = (Rejected e,
     deliver (removedDuring b (debugger_attach t "1.3"))
       (observe (Issued (debugger_attach t "1.3"))
          (deliver (removedDuring b debugger_getTargets)
             (observe (Issued debugger_getTargets) st)))).
Proof.
  unfold existingTarget. intros Htargets Hfind Hattach.
  unfold upload, attachDebugger. rewrite run_bindE.
  cbn [run bind bindE await]. rewrite Htargets.
  cbn [run bind bindE await]. rewrite Hfind.
  cbn [run bind bindE await]. rewrite Hattach. reflexivity.
Qed.

(** X22. A call on a free tab whose attach the browser rejects: when the
    tool holds no session for the tab, the call ends in an error, sends no
    protocol command and no detach, and as soon as it got as far as the
    attach the error is the browser's rejection, reported by the catch
    block. *)
Theorem execute_attach_rejected (b : Browser) (runtime_id : string)
    (args : FileUploadToolParams) (st st' : State) (r : ToolResult)
    (t : Z) (targets : list TargetInfo) (e : string) :
  settle b tabs_query = Resolved (Some t) ->
  settle b debugger_getTargets = Resolved targets ->
  existingTarget targets t = None ->
  settle b (debugger_attach t "1.3") = Rejected e ->
  activeDebuggers st !! t = None ->
  run b (execute runtime_id args) st = (r, st') ->
  isError r = true
  /\ exists events,
       grewBy st st' events
       /\ Forall (fun ev => usesSession ev = false) events
       /\ (existsb isAttach events = true ->
           r = createErrorResponse ("Error uploading file: " ++ e)%string).
Proof.
  intros Htab Htargets Hfind Hattach Hnone. exec_outer.
  all: try discriminate Htab.
  all: try (injection Htab as ->).
  all: try (intros [= <- <-]; split; [reflexivity|]; eexists;
            split; [solve [grew] | split; [all_events | intros H; no_attach H]]).
  all: try match goal with
       | H : run _ (upload _ _ _ _) _ = _ |- _ =>
           cbn [from_option id] in H;
           rewrite (upload_attach_rejected _ _ _ _ _ _ _ _ Htargets Hfind Hattach) in H;
           first [discriminate H | injection H as <- <-]
       end.
  all: cbn [from_option id]; rewrite caught_quiet by no_session.
  all: intros [= <- <-]; split; [reflexivity|]; eexists;
       split; [grew | split; [all_events |]].
  all: first [intros _; reflexivity | intros H; no_attach H].
Qed.

Lemma execute_attach_rejected_witness :
  let out := run refusingBrowser (execute "ext" localUpload) initial in
  settle refusingBrowser tabs_query = Resolved (Some 7)
  /\ settle refusingBrowser debugger_getTargets = Resolved []
  /\ existingTarget [] 7 = None
  /\ settle refusingBrowser (debugger_attach 7 "1.3")
     = Rejected "Cannot access a chrome:// URL"
  /\ activeDebuggers initial !! 7 = None
  /\ isError out.1 = true
  /\ exists events,
       grewBy initial out.2 events
       /\ Forall (fun ev => usesSession ev = false) events
       /\ (existsb isAttach events = true ->
           out.1 = createErrorResponse
                     "Error uploading file: Cannot access a chrome:// URL").
Proof.
  intros out. do 5 (split; [reflexivity|]).
  exact (execute_attach_rejected refusingBrowser "ext" localUpload initial out.2 out.1
           7 [] "Cannot access a chrome:// URL"
           eq_refl eq_refl eq_refl eq_refl eq_refl eq_refl).
Defined.

(** *** The answers before the acquisition *)

(** X23. Past the validation, a call answers "No active tab found" when
    the query gives no tab or a tab without id or with the id 0; it
    answers "Failed to prepare file for upload" when there is no local
    path and the native host resolves with no path or an empty one; and a
    rejected query is reported by the catch block. *)
Theorem execute_early_returns (b : Browser) (runtime_id : string)
    (args : FileUploadToolParams) (st st' : State) (r : ToolResult) :
  selector args <> "" ->
  sources args <> 0%nat ->
  run b (execute runtime_id args) st = (r, st') ->
  (forall id, settle b tabs_query = Resolved id -> truthy_Z id = false ->
     r = createErrorResponse "No active tab found")
  /\ (forall e, settle b tabs_query = Rejected e ->
        r = createErrorResponse ("Error uploading file: " ++ e)%string)
  /\ (forall t temp,
        settle b tabs_query = Resolved (Some t) -> t <> 0 ->
        truthy_string (filePath args) = false ->
        settle b (prepareFileFromRemote (fileUrl args) (base64Data args)
                    (or_else (fileName args) "uploaded-file")) = Resolved temp ->
        truthy_string temp = false ->
        r = createErrorResponse "Failed to prepare file for upload").
Proof.
  rewrite <- falsy_selector, no_sources. intros Hsel Hsrc. exec_outer.
  all: try (exfalso; first [apply Hsel; reflexivity | apply Hsrc; auto]; fail).
  all: try (intros [= <- <-]).
  all: try match goal with
       | |- run _ (caught _ _) _ = _ -> _ =>
           let H := fresh in intros H; apply caught_spec in H;
           destruct H as (-> & _ & _)
       end.
  all: (split; [|split]);
    [ intros id Hid Hfalsy | intros e He | intros t temp Htab Hnz Hfp Hstage Htemp ].
  all: try congruence.
  all: try (injection Htab as ->; destruct t; simpl in *; congruence).
  all: try (rewrite Hstage in *; congruence).
Qed.

Lemma execute_early_returns_witness :
  let out := run unstagedBrowser (execute "ext" remoteUpload) initial in
  selector remoteUpload <> ""
  /\ sources remoteUpload <> 0%nat
  /\ out.1 = createErrorResponse "Failed to prepare file for upload".
Proof.
  intros out. split; [discriminate | split; [discriminate|]].
  apply (execute_early_returns unstagedBrowser "ext" remoteUpload initial out.2 out.1
           ltac:(discriminate) ltac:(discriminate) eq_refl) with (t := 7) (temp := None);
    [reflexivity | discriminate | reflexivity | reflexivity | reflexivity].
Defined.

End UploadMore.

(** ** The shared package: formatting and serialization *)

Module SharedMore.
Import SharedSpec.

(** *** response-formatter *)

(** X24. Two configuration updates are one update with the merged keys,
    the later ones winning; so an update applied twice is the update, and
    a reset forgets every update. *)
Theorem setResponseFormat_merge (first second : ResponseFormatter.PartialConfig)
    (c : ResponseFormatter.ResponseFormatterConfig) :
  ResponseFormatter.setResponseFormat second
    (ResponseFormatter.setResponseFormat first c)
  = ResponseFormatter.setResponseFormat (merge first second) c
  /\ ResponseFormatter.setResponseFormat first
       (ResponseFormatter.setResponseFormat first c)
     = ResponseFormatter.setResponseFormat first c
  /\ ResponseFormatter.getResponseFormat
       (ResponseFormatter.resetResponseFormat
          (ResponseFormatter.setResponseFormat first c))
     = ResponseFormatter.defaultConfig.
Proof.
  destruct first as [[f1|] [p1|]], second as [[f2|] [p2|]], c as [f p];
    repeat split; reflexivity.
Qed.

(** X25. A format given to one call of [formatResponse] acts as the
    configured format would: the call is the call without override under
    the configuration updated with this format. *)
Theorem formatResponse_override {Data : Type} (lib : Codec Data)
    (c : ResponseFormatter.ResponseFormatterConfig) (data : Data)
    (f : ResponseFormatter.ResponseFormat) :
  ResponseFormatter.formatResponse lib c data (Some f)
  = ResponseFormatter.formatResponse lib
      (ResponseFormatter.setResponseFormat (onlyFormat (Some f)) c) data None.
Proof.
  destruct f; unfold ResponseFormatter.formatResponse,
    ResponseFormatter.formatAsYaml, ResponseFormatter.formatAsJson; reflexivity.
Qed.


(** X27. Once an update has named the format without a value, the
    configured format is no format: every call without override answers
    with JSON, the YAML printer is not consulted and nothing is logged,
    whatever the configuration was before. *)
Theorem formatResponse_undefined_format {Data : Type} (lib : Codec Data)
    (c : ResponseFormatter.ResponseFormatterConfig) (data : Data) :
  ResponseFormatter.stringify lib
    (ResponseFormatter.setResponseFormat (onlyFormat None) c) data
  = (JSON_stringify lib data (configuredSpace c), []).
Proof.
  unfold ResponseFormatter.stringify, ResponseFormatter.formatResponse,
    ResponseFormatter.formatAsJson, configuredSpace.
  cbn. destruct (default false (ResponseFormatter.prettyJson c)); reflexivity.
Qed.

(** *** serializer *)

(** X28. [serialize] throws only what the JSON fallback throws: either
    nothing is logged, or one line is, and the answer is
    [JSON.stringify(data, null, pretty ? 2 : 0)]. *)
Theorem serialize_falls_back {Data : Type} (lib : Codec Data) (data : Data)
    (options : Serializer.SerializerOptions) :
  let out := Serializer.serialize lib data options in
  (forall e, out.1 = Rejected e ->
     JSON_stringify lib data (fallbackSpace options) = Rejected e)
  /\ (out.2 = []
      \/ (exists line, out.2 = [line])
         /\ out.1 = JSON_stringify lib data (fallbackSpace options)).
Proof.
  unfold Serializer.serialize, fallbackSpace.
  destruct (String.eqb (default "yaml" (Serializer.format options)) "json"),
    (String.eqb (default "yaml" (Serializer.format options)) "yaml"),
    (default false (Serializer.pretty options)).
  all: cbv beta iota zeta.
  all: repeat match goal with
       | |- context [match ?x with Resolved _ => _ | Rejected _ => _ end] =>
           destruct x eqn:?
       end; cbn [fst snd].
  all: split;
    [ intros e He; first [exact He | discriminate He]
    | first [left; reflexivity
            | right; split; [eexists; reflexivity | reflexivity]] ].
Qed.

(** X29. What [serialize] has written without a fallback,
    [deserialize] reads back in the same format, when the parsers read
    what the printers write. *)
Theorem serialize_round_trip {Data : Type} (lib : Codec Data) (data : Data)
    (options : Serializer.SerializerOptions) (text : string) :
  faithful lib ->
  Serializer.serialize lib data options = (Resolved text, []) ->
  Serializer.deserialize lib text (Serializer.format options)
  = (Resolved data, []).
Proof.
  intros [Hyaml Hjson]. unfold Serializer.serialize, Serializer.deserialize.
  destruct (String.eqb (default "yaml" (Serializer.format options)) "json"),
    (String.eqb (default "yaml" (Serializer.format options)) "yaml"),
    (default false (Serializer.pretty options)).
  all: cbv beta iota zeta; intros H.
  all: repeat match type of H with
       | context [match ?x with Resolved _ => _ | Rejected _ => _ end] =>
           destruct x eqn:?
       end.
  all: first [discriminate H | injection H as ->].
  all: first [ erewrite Hjson by eassumption; reflexivity
             | erewrite Hyaml by eassumption; reflexivity ].
Qed.

Lemma serialize_round_trip_witness :
  faithful textCodec
  /\ Serializer.serialize textCodec "a: 1"
       {| Serializer.format := None; Serializer.pretty := None |}
     = (Resolved "a: 1", [])
  /\ Serializer.deserialize textCodec "a: 1" None = (Resolved "a: 1", []).
Proof.
  assert (H : faithful textCodec).
  { split.
    - intros d t. cbn. destruct (String.eqb d ""); intros [= <-]. reflexivity.
    - intros d space t. cbn. intros [= <-]. reflexivity. }
  split; [exact H | split; [reflexivity|]].
  exact (serialize_round_trip textCodec "a: 1"
           {| Serializer.format := None; Serializer.pretty := None |} "a: 1"
           H eq_refl).
Defined.



End SharedMore.
